(** * Task-management API: authentication and task handlers

    A shallow embedding of the NestJS task-management service:
    - [AuthService.signUp] and [AuthService.signIn] (src/auth), translated
      from the TypeScript source;
    - [TasksController], the handlers of [@Controller('tasks')] that forward
      to the task service, with the routes as its decorators declare them
      ([TasksRoutes]), and the [Task] entity, translated from the TypeScript
      source;
    - the task-service, token-strategy and validation code that the
      repository's tutorial gives: the in-memory service, the filter query,
      [JwtStrategy.validate] and the decorators of [AuthCredentialsDto];
    - beside them, the design of the specification where it says more than
      that code does: the credential store, the token issuer/validator, the
      access guard, the caller-scoped task service and the guarded request
      boundary.  Each of these definitions is marked as modelled from the
      specification.

    Asynchronous calls are sequenced as the [await]s sequence them; the
    stores are threaded explicitly; everything the environment decides
    (salt, generated ids, clock, storage faults) is an explicit input. *)

From Stdlib Require Import ZArith Bool Ascii Lia.
From stdpp Require Import base option strings list gmap.

Open Scope string_scope.

(** ** JavaScript values

    The [catch (error: any)] clause of [signUp] inspects an arbitrary thrown
    value, and the controller counts the keys of a parsed query object, so
    values are kept in their dynamic form.  An object is its list of
    properties in insertion order (what [Object.keys] enumerates). *)

Module Js.

#[warnings="-register-all"] Inductive Value : Type :=
| Undefined
| Null
| Boolean (b : bool)
| Number (n : Z)
| NaN
| String (s : string)
| Object (props : list (string * Value))
| Function (props : list (string * Value)).

Abbreviation Props := (list (string * Value)).

(** [ToBoolean]: what [error && ...] tests. *)
Definition truthy (v : Value) : bool :=
  match v with
  | Undefined | Null | NaN => false
  | Boolean b => b
  | Number n => negb (n =? 0)%Z
  | String s => negb (String.eqb s "")
  | Object _ | Function _ => true
  end.

(** [typeof v]. *)
Definition typeof (v : Value) : string :=
  match v with
  | Undefined => "undefined"
  | Null => "object"
  | Boolean _ => "boolean"
  | Number _ | NaN => "number"
  | String _ => "string"
  | Object _ => "object"
  | Function _ => "function"
  end.

(** Property lookup in a property list: the first binding of the key. *)
Fixpoint lookup_prop (k : string) (ps : Props) : option Value :=
  match ps with
  | [] => None
  | (k', v) :: ps' => if String.eqb k k' then Some v else lookup_prop k ps'
  end.

Definition props_of (v : Value) : Props :=
  match v with
  | Object ps | Function ps => ps
  | _ => []
  end.

(** [k in v], for a [v] that is an object or a function. *)
Definition has (k : string) (v : Value) : bool :=
  match lookup_prop k (props_of v) with
  | Some _ => true
  | None => false
  end.

(** [v.k] (or [v[k]]); a missing property reads as [undefined]. *)
Definition get (k : string) (v : Value) : Value :=
  match lookup_prop k (props_of v) with
  | Some x => x
  | None => Undefined
  end.

(** [v === 'literal']: only a string with the same characters. *)
Definition strict_eq_string (v : Value) (lit : string) : bool :=
  match v with
  | String s => String.eqb s lit
  | _ => false
  end.

(** [Object.keys(o)]. *)
Definition keys (o : Props) : list string := map fst o.

(** The property [k] of [o] when it is present and a string. *)
Definition string_prop (k : string) (o : Props) : option string :=
  match lookup_prop k o with
  | Some (String s) => Some s
  | _ => None
  end.

End Js.

(** ** HTTP exceptions thrown by the handlers *)

Inductive HttpException : Type :=
| ConflictException (message : string)
| InternalServerErrorException
| UnauthorizedException (message : option string)
| NotFoundException.

(** The names the specification gives to the failures. *)
Definition UsernameTaken : HttpException :=
  ConflictException "Username already exists".
Definition StorageUnavailable : HttpException := InternalServerErrorException.
Definition InvalidCredentials : HttpException :=
  UnauthorizedException (Some "Please check your login credentials").
Definition NotFound : HttpException := NotFoundException.

(** A promise that either resolves with a value or rejects with an
    exception. *)
Inductive Outcome (A : Type) : Type :=
| Resolves (a : A)
| Rejects (e : HttpException).
Arguments Resolves {A} a.
Arguments Rejects {A} e.

(** ** Users and the credential store *)

(** Modelled from the spec: the User record of section 3 (the repository's
    tutorial gives the entity with the same three fields); [password] is
    the field [signIn] reads, the
    stored hash. *)
Module User.
Record t : Type := mk {
  id : string;
  username : string;
  password : string   (* the bcrypt hash, never the plaintext *)
}.
End User.

Record AuthCredentialsDto : Type := mkCredentials {
  dto_username : string;
  dto_password : string
}.

(** The users table, rows in insertion order. *)
Abbreviation UsersDb := (list User.t).

(** What the environment decides for one [save]: the identifier the store
    generates for the row, and whether the storage layer fails for a reason
    of its own (connection lost, ...), in which case it throws that value. *)
Record StoreOracle : Type := mkOracle {
  generated_id : string;
  failure : option Js.Value
}.

Module UsersRepository.

(** [usersRepository.create({username, password})]: an entity instance not
    yet stored. *)
Definition create (username password : string) : string * string :=
  (username, password).

(** [usersRepository.findOne({ where: { username } })]. *)
Definition findOne (name : string) (db : UsersDb) : option User.t :=
  find (fun u => String.eqb (User.username u) name) db.

(** The error PostgreSQL's driver raises for a unique-constraint violation:
    SQLSTATE 23505, carried as the string property [code]. *)
Definition unique_violation : Js.Value :=
  Js.Object [("name", Js.String "QueryFailedError");
             ("code", Js.String "23505");
             ("constraint", Js.String "users_username_key")].

Inductive SaveResult : Type :=
| Saved (db' : UsersDb)
| SaveThrows (error : Js.Value).

(** Modelled from the spec: the Credential Store (a TypeORM repository
    over a users table with a unique index on username) is not among the
    sources.  It persists user records and enforces username uniqueness;
    any other failure is the environment's. *)
Definition save (env : StoreOracle) (draft : string * string) (db : UsersDb)
  : SaveResult :=
  match failure env with
  | Some error => SaveThrows error
  | None =>
      match findOne (fst draft) db with
      | Some _ => SaveThrows unique_violation
      | None => Saved (db ++ [User.mk (generated_id env) (fst draft) (snd draft)])
      end
  end.

End UsersRepository.

(** ** bcrypt

    The hashing library is an interface: [hash] with an explicit salt (the
    result of [genSalt], an input here) and [compare]. *)

Class Bcrypt : Type := {
  bcrypt_hash : string -> string -> string;      (* hash(plaintext, salt) *)
  bcrypt_compare : string -> string -> bool      (* compare(plaintext, hash) *)
}.

(** The library's contract: a hash verifies against the plaintext it was
    made from, whatever the salt. *)
Class BcryptSound `{Bcrypt} : Prop :=
  compare_hash : forall plaintext salt,
    bcrypt_compare plaintext (bcrypt_hash plaintext salt) = true.

(** ** Tokens

    A signed token in decoded form; the compact serialisation is the JWT
    library's.  The payload is the object handed to [sign]; the library adds
    the issue and expiry times and the signature. *)

Record Jwt : Type := mkJwt {
  jwt_payload : Js.Props;
  jwt_iat : Z;
  jwt_exp : Z;
  jwt_signature : Z
}.

(** The keyed signature function (HMAC under the process-wide secret). *)
Class JwtSigner : Type := {
  jwt_secret : string;
  jwt_mac : string -> Js.Props -> Z -> Z -> Z
}.

(** Modelled from the spec: the fixed validity window of section 4.2, 3600
    seconds from issuance (the module configuration in the repository's
    tutorial sets [expiresIn: 3600] as well). *)
Definition expiresIn : Z := 3600.

(** What [signIn] resolves with: [{ accessToken }]. *)
Record SignInResult : Type := mkSignInResult { accessToken : Jwt }.

Module JwtService.

(** Modelled from the spec: the Token Issuer of section 4.2 (the JWT
    library is not part of the repository).
    [issue(claims)] encodes the claims and an expiry a fixed window after
    issuance, signed with the process-wide secret. *)
Definition sign `{JwtSigner} (now : Z) (payload : Js.Props) : Jwt :=
  let exp := (now + expiresIn)%Z in
  mkJwt payload now exp (jwt_mac jwt_secret payload now exp).



End JwtService.

(** ** AuthService (src/auth, [AuthService]) *)

Module AuthService.

(** The test of the [catch] clause of [signUp]:
    [error && typeof error === 'object' && 'code' in error
     && error.code === '23505']. *)
Definition is_duplicate_username (error : Js.Value) : bool :=
  Js.truthy error
  && String.eqb (Js.typeof error) "object"
  && Js.has "code" error
  && Js.strict_eq_string (Js.get "code" error) "23505".

(** [async signUp(authCredentialsDto): Promise<void>].  [salt] is what
    [bcrypt.genSalt()] returned. *)
Definition signUp `{Bcrypt} (salt : string) (env : StoreOracle)
    (authCredentialsDto : AuthCredentialsDto) (db : UsersDb)
  : Outcome unit * UsersDb :=
  let username := dto_username authCredentialsDto in
  let password := dto_password authCredentialsDto in
  let hashedPassword := bcrypt_hash password salt in
  let user := UsersRepository.create username hashedPassword in
  match UsersRepository.save env user db with
  | UsersRepository.Saved db' => (Resolves tt, db')
  | UsersRepository.SaveThrows error =>
      if is_duplicate_username error
      then (Rejects (ConflictException "Username already exists"), db)
      else (Rejects InternalServerErrorException, db)
  end.

(** [async signIn(authCredentialsDto): Promise<{ accessToken }>]. *)
Definition signIn `{Bcrypt} `{JwtSigner} (now : Z)
    (authCredentialsDto : AuthCredentialsDto) (db : UsersDb)
  : Outcome SignInResult :=
  let username := dto_username authCredentialsDto in
  let password := dto_password authCredentialsDto in
  let user := UsersRepository.findOne username db in
  if match user with
     | Some u => bcrypt_compare password (User.password u)
     | None => false
     end
  then
    let payload := [("username", Js.String username)] in
    let accessToken := JwtService.sign now payload in
    Resolves (mkSignInResult accessToken)
  else Rejects (UnauthorizedException (Some "Please check your login credentials")).

End AuthService.

(** ** Tasks (the [Task] entity) *)

(** Modelled from the spec: the status enumeration of section 3 (the enum's
    file is not among the sources). *)
Inductive TaskStatus : Type := OPEN | IN_PROGRESS | DONE.

Definition TaskStatus_name (s : TaskStatus) : string :=
  match s with
  | OPEN => "OPEN"
  | IN_PROGRESS => "IN_PROGRESS"
  | DONE => "DONE"
  end.

Module Task.
Record t : Type := mk {
  id : string;
  title : string;
  description : string;
  status : TaskStatus;
  user : User.t     (* the owner: [@ManyToOne(() => User, ...)] *)
}.
End Task.

(** The tasks table, keyed by id. *)
Abbreviation TasksDb := (gmap string Task.t).

(** ** Text matching for the search filter *)

Module Text.

Definition lower_ascii (c : ascii) : ascii :=
  let n := nat_of_ascii c in
  if (65 <=? n)%nat && (n <=? 90)%nat then ascii_of_nat (n + 32) else c.

Fixpoint toLowerCase (s : string) : string :=
  match s with
  | EmptyString => EmptyString
  | String c s' => String (lower_ascii c) (toLowerCase s')
  end.

(** [hay] contains [needle] as a contiguous substring. *)
Fixpoint includes (hay needle : string) : bool :=
  String.prefix needle hay ||
  match hay with
  | EmptyString => false
  | String _ hay' => includes hay' needle
  end.

(** Case-insensitive substring match. *)
Definition ilike (text term : string) : bool :=
  includes (toLowerCase text) (toLowerCase term).

End Text.

(** ** The task service as the controller sees it

    The controller only forwards to [this.tasksService]; [M] is whatever the
    service's methods return. *)

Module TasksService.
Record t (M : Type -> Type) : Type := mk {
  getAllTasks : M (list Task.t);
  getTaskWithFilters : Js.Props -> M (list Task.t);
  createTask : Js.Props -> M Task.t;
  getTaskById : string -> M Task.t;
  removeTask : string -> M unit;
  updateTaskStatus : string -> TaskStatus -> M Task.t
}.
Arguments mk {M}.
Arguments getAllTasks {M}.
Arguments getTaskWithFilters {M}.
Arguments createTask {M}.
Arguments getTaskById {M}.
Arguments removeTask {M}.
Arguments updateTaskStatus {M}.
End TasksService.

(** ** TasksController ([@Controller('tasks')]) *)

Module TasksController.
Section Handlers.
Context {M : Type -> Type} (tasksService : TasksService.t M).

(** [@Get() getTasks(@Query() filtersDto)]. *)
Definition getTasks (filtersDto : Js.Props) : M (list Task.t) :=
  if (0 <? length (Js.keys filtersDto))%nat
  then TasksService.getTaskWithFilters tasksService filtersDto
  else TasksService.getAllTasks tasksService.

(** [@Post() createTask(@Body() createTaskDto)]. *)
Definition createTask (createTaskDto : Js.Props) : M Task.t :=
  TasksService.createTask tasksService createTaskDto.

(** [@Get(':id') getById(@Param('id') id)]. *)
Definition getById (id : string) : M Task.t :=
  TasksService.getTaskById tasksService id.

(** [@Delete(':id') removeTask(@Param('id') id)]. *)
Definition removeTask (id : string) : M unit :=
  TasksService.removeTask tasksService id.

(** [@Patch(':id/status') updateTaskStatus(@Param('id') id,
    @Body('status') status)]. *)
Definition updateTaskStatus (id : string) (status : TaskStatus) : M Task.t :=
  TasksService.updateTaskStatus tasksService id status.

End Handlers.
End TasksController.

(** A service that only records which of its methods was called, and with
    what: it makes the controller's dispatch observable. *)
Inductive Call : Type :=
| CallGetAllTasks
| CallGetTaskWithFilters (filtersDto : Js.Props)
| CallCreateTask (createTaskDto : Js.Props)
| CallGetTaskById (id : string)
| CallRemoveTask (id : string)
| CallUpdateTaskStatus (id : string) (status : TaskStatus).

Definition recorder : TasksService.t (fun _ => Call) :=
  TasksService.mk CallGetAllTasks CallGetTaskWithFilters CallCreateTask
                  CallGetTaskById CallRemoveTask CallUpdateTaskStatus.

(** ** The task service of the specification

    Section 4.5 of the specification describes a task service whose every
    operation is scoped to the caller's resolved user.  [SpecTasksService]
    follows those words.  It is not the repository's service: the code the
    repository gives looks tasks up and removes them by id alone, builds a
    created task from the whole body without an owner, and filters with the
    query of [RepositoryTasksService.getTasks]; and [TasksController] has
    one injected service to which it passes no user. *)

(** A service call runs against the tasks table and may change it. *)
Definition Svc (A : Type) : Type := TasksDb -> Outcome A * TasksDb.

Module SpecTasksService.

(** Ownership: [ownerId == current authenticated user's id]. *)
Definition owned_by (caller : User.t) (t : Task.t) : Prop :=
  User.id (Task.user t) = User.id caller.

#[global] Instance owned_by_dec caller t : Decision (owned_by caller t).
Proof. unfold owned_by. apply _. Defined.

(** The optional filter carried by the query object. *)
Record Filter : Type := mkFilter {
  by_status : option string;
  by_search : option string
}.

Definition parse_filter (filtersDto : Js.Props) : Filter :=
  mkFilter (Js.string_prop "status" filtersDto)
           (Js.string_prop "search" filtersDto).

(** Modelled from the spec: the filter of section 4.5, "[status] (exact
    match) and [search] (case-insensitive substring match against title OR
    description)".  The repository's filter query differs from it (see
    [TaskQuery]). *)
Definition matches (f : Filter) (t : Task.t) : bool :=
  match by_status f with
  | Some s => String.eqb (TaskStatus_name (Task.status t)) s
  | None => true
  end
  &&
  match by_search f with
  | Some term =>
      Text.ilike (Task.title t) term || Text.ilike (Task.description t) term
  | None => true
  end.

Definition rows (db : TasksDb) : list Task.t := (map_to_list db).*2.

Definition text_prop (k : string) (o : Js.Props) : string :=
  default "" (Js.string_prop k o).

Definition lookup_owned (caller : User.t) (id : string) (db : TasksDb)
  : option Task.t :=
  match db !! id with
  | Some t => if decide (owned_by caller t) then Some t else None
  | None => None
  end.

Definition with_status (s : TaskStatus) (t : Task.t) : Task.t :=
  Task.mk (Task.id t) (Task.title t) (Task.description t) s (Task.user t).

Section Scoped.
Context (caller : User.t).

(** Modelled from the spec: List of section 4.5 with no filter, all of the
    caller's tasks.  (The repository's [getAllTasks] returns every task.) *)
Definition getAllTasks : Svc (list Task.t) :=
  fun db => (Resolves (filter (owned_by caller) (rows db)), db).

(** Modelled from the spec: List(filter) of section 4.5, the caller's tasks
    that match the optional status and the optional search term. *)
Definition getTaskWithFilters (filtersDto : Js.Props) : Svc (list Task.t) :=
  fun db =>
    (Resolves (List.filter (matches (parse_filter filtersDto))
                           (filter (owned_by caller) (rows db))), db).

(** Modelled from the spec: Create(title, description) of section 4.5; a
    new task with a generated id, status forced to OPEN regardless of input,
    owner set to the caller.  (The repository's [createTask], embedded as
    [InMemoryTasksService.createTask], spreads the whole body and records no
    owner.) *)
Definition createTask (createTaskDto : Js.Props) : Svc Task.t :=
  fun db =>
    let task := Task.mk (fresh (dom db))
                        (text_prop "title" createTaskDto)
                        (text_prop "description" createTaskDto)
                        OPEN caller in
    (Resolves task, <[Task.id task := task]> db).

(** Modelled from the spec: GetById(id) of section 4.5; NotFound if absent
    or owned by a different user.  (The repository's [getTaskById] tests the
    id alone.) *)
Definition getTaskById (id : string) : Svc Task.t :=
  fun db =>
    match lookup_owned caller id db with
    | Some t => (Resolves t, db)
    | None => (Rejects NotFound, db)
    end.

(** Modelled from the spec: Delete(id) of section 4.5; NotFound under the
    same rule, otherwise removes the record.  (The repository's [deleteTask]
    tests the id alone.) *)
Definition removeTask (id : string) : Svc unit :=
  fun db =>
    match lookup_owned caller id db with
    | Some _ => (Resolves tt, delete id db)
    | None => (Rejects NotFound, db)
    end.

(** Modelled from the spec: UpdateStatus(id, newStatus) of section 4.5;
    NotFound under the same rule, otherwise overwrites status only. *)
Definition updateTaskStatus (id : string) (status : TaskStatus) : Svc Task.t :=
  fun db =>
    match lookup_owned caller id db with
    | Some t =>
        let t' := with_status status t in
        (Resolves t', <[id := t']> db)
    | None => (Rejects NotFound, db)
    end.


End Scoped.
End SpecTasksService.

(** ** The access guard *)

Module AccessGuard.



End AccessGuard.

(** ** The request boundary of the specification (sections 2 and 6)

    The boundary as the specification designs it: the access guard in front
    of the task operations, and each task operation served for the user the
    guard resolved.  [TasksController] itself declares its routes without a
    guard and receives no user; [TasksRoutes] is its embedding. *)

Module SpecApi.

Inductive AuthOp : Type :=
| SignUp (dto : AuthCredentialsDto)
| SignIn (dto : AuthCredentialsDto).

Inductive TaskOp : Type :=
| ListTasks (filtersDto : Js.Props)
| CreateTask (createTaskDto : Js.Props)
| GetTask (id : string)
| UpdateStatus (id : string) (status : TaskStatus)
| DeleteTask (id : string).

Inductive Operation : Type :=
| Public (op : AuthOp)
| Protected (op : TaskOp).

Record Request : Type := mkRequest {
  authorization : option Jwt;
  operation : Operation
}.



Inductive Response : Type :=
| Accepted
| Token (result : SignInResult)
| OneTask (t : Task.t)
| Tasks (ts : list Task.t)
| Removed.

Definition map_outcome {A B} (f : A -> B) (o : Outcome A) : Outcome B :=
  match o with
  | Resolves a => Resolves (f a)
  | Rejects e => Rejects e
  end.

Definition map_svc {A B} (f : A -> B) (m : Svc A) : Svc B :=
  fun db => let '(o, db') := m db in (map_outcome f o, db').

(** The task operations of section 6, each on the controller's handler. *)
Definition route (svc : TasksService.t Svc) (op : TaskOp) : Svc Response :=
  match op with
  | ListTasks filtersDto => map_svc Tasks (TasksController.getTasks svc filtersDto)
  | CreateTask createTaskDto =>
      map_svc OneTask (TasksController.createTask svc createTaskDto)
  | GetTask id => map_svc OneTask (TasksController.getById svc id)
  | UpdateStatus id status =>
      map_svc OneTask (TasksController.updateTaskStatus svc id status)
  | DeleteTask id => map_svc (fun _ => Removed) (TasksController.removeTask svc id)
  end.





End SpecApi.

(** ** Reference instances of the library interfaces

    Small executable stand-ins for the hashing and signing libraries, used
    to run the handlers on concrete requests. *)

Definition demo_bcrypt : Bcrypt :=
  {| bcrypt_hash plaintext salt := plaintext ++ "$" ++ salt;
     bcrypt_compare plaintext hash := String.prefix (plaintext ++ "$") hash |}.

Definition demo_signer : JwtSigner :=
  {| jwt_secret := "topSecret52";
     jwt_mac secret payload iat exp :=
       (Z.of_nat (String.length secret) + Z.of_nat (length payload)
        + 3 * iat + 7 * exp)%Z |}.

(** A thrown value that is an object carrying a [code] property strictly
    equal to the string ['23505']. *)
Definition CarriesDuplicateCode (error : Js.Value) : Prop :=
  exists props,
    error = Js.Object props /\
    Js.lookup_prop "code" props = Some (Js.String "23505").

(** ** The [catch] condition, evaluated operator by operator

    [k in v] and [v.k] are partial in JavaScript: they raise a TypeError on
    some operands.  This finer evaluation of the condition of [signUp]'s
    [catch] clause keeps those errors visible. *)

Module CatchClause.

Inductive Completion (A : Type) : Type :=
| Normal (a : A)
| ThrowsTypeError.
Arguments Normal {A} a.
Arguments ThrowsTypeError {A}.

(** [k in v]: a TypeError unless [v] is an object (functions included). *)
Definition in_operator (k : string) (v : Js.Value) : Completion bool :=
  match v with
  | Js.Object _ | Js.Function _ => Normal (Js.has k v)
  | _ => ThrowsTypeError
  end.

(** [v.code]: a TypeError on [undefined] and [null]; a primitive is boxed
    and its prototype has no [code], so the read gives [undefined]. *)
Definition member_code (v : Js.Value) : Completion Js.Value :=
  match v with
  | Js.Undefined | Js.Null => ThrowsTypeError
  | _ => Normal (Js.get "code" v)
  end.

(** [error && typeof error === 'object' && 'code' in error
     && error.code === '23505'], left to right with the short circuit of
    [&&]: an operand is evaluated only when all the ones before are truthy. *)
Definition condition (error : Js.Value) : Completion bool :=
  if negb (Js.truthy error) then Normal false
  else if negb (String.eqb (Js.typeof error) "object") then Normal false
  else
    match in_operator "code" error with
    | ThrowsTypeError => ThrowsTypeError
    | Normal false => Normal false
    | Normal true =>
        match member_code error with
        | ThrowsTypeError => ThrowsTypeError
        | Normal code => Normal (Js.strict_eq_string code "23505")
        end
    end.

End CatchClause.

(** ** JwtStrategy.validate (src/auth/jwt-strategy.ts, as the repository's
    tutorial gives it) *)

(** [interface JwtPayload { username: string }]. *)
Record JwtPayload : Type := mkJwtPayload { payload_username : string }.

Module JwtStrategy.

(** The decoded claims read at the type [JwtPayload]. *)
Definition payload_of (claims : Js.Props) : option JwtPayload :=
  mkJwtPayload <$> Js.string_prop "username" claims.

(** [async validate(payload: JwtPayload): Promise<User>]. *)
Definition validate (payload : JwtPayload) (db : UsersDb) : Outcome User.t :=
  let username := payload_username payload in
  let user := UsersRepository.findOne username db in
  match user with
  | None => Rejects (UnauthorizedException None)
  | Some user => Resolves user
  end.

End JwtStrategy.

(** ** Object literals with a spread *)

Module JsObject.

(** Defining property [k] on an object under construction: an existing
    property keeps its place and takes the new value, a new one goes last. *)
Fixpoint set (k : string) (v : Js.Value) (o : Js.Props) : Js.Props :=
  match o with
  | [] => [(k, v)]
  | (k', v') :: o' =>
      if String.eqb k k' then (k, v) :: o' else (k', v') :: set k v o'
  end.

(** [{ ...target, ...source }]: the own properties of [source], in order,
    defined on [target]. *)
Definition spread (source target : Js.Props) : Js.Props :=
  fold_left (fun acc kv => set kv.1 kv.2 acc) source target.

(** [o.k]. *)
Definition prop (k : string) (o : Js.Props) : Js.Value :=
  default Js.Undefined (Js.lookup_prop k o).

End JsObject.

(** ** The in-memory TasksService (src/tasks/tasks.service.ts before the
    database, as the repository's tutorial gives it)

    [this.tasks] is threaded explicitly; [uuid] is what [uuid()] returned;
    [OPEN_value] is the value of [TaskStatus.OPEN]. *)

Module InMemoryTasksService.
Section Service.
Context (OPEN_value : Js.Value).

(** [getAllTasks(): Task[]]. *)
Definition getAllTasks (tasks : list Js.Props) : list Js.Props := tasks.

(** [createTask(dto)]: [{ id: uuid(), ...dto, status: TaskStatus.OPEN }],
    pushed and returned. *)
Definition createTask (uuid : string) (dto : Js.Props) (tasks : list Js.Props)
  : Js.Props * list Js.Props :=
  let task :=
    JsObject.set "status" OPEN_value
      (JsObject.spread dto (JsObject.set "id" (Js.String uuid) [])) in
  (task, (tasks ++ [task])%list).

(** [(t) => t.id === id], for the string [id] of the route. *)
Definition has_id (id : string) (t : Js.Props) : bool :=
  Js.strict_eq_string (JsObject.prop "id" t) id.

(** [getTaskById(id)]: the first task with that id, or NotFoundException. *)
Definition getTaskById (id : string) (tasks : list Js.Props)
  : Outcome Js.Props :=
  match find (has_id id) tasks with
  | Some task => Resolves task
  | None => Rejects NotFoundException
  end.

(** [deleteTask(id)]: [this.tasks.filter((t) => t.id !== id)]. *)
Definition deleteTask (id : string) (tasks : list Js.Props) : list Js.Props :=
  List.filter (fun t => negb (has_id id t)) tasks.

End Service.
End InMemoryTasksService.

(** ** Regular expressions, as far as the password pattern needs them *)

Module Regex.

Inductive t : Type :=
| Char (p : ascii -> bool)      (* one character of a class *)
| Star (p : ascii -> bool)      (* c* for a one-character class c *)
| Plus (p : ascii -> bool)      (* c+ *)
| Seq (r1 r2 : t)
| Alt (r1 r2 : t)
| Ahead (r : t)                 (* (?=r) *)
| NotAhead (r : t)              (* (?!r) *)
| End.                          (* $ without the m flag *)

(** Backtracking matcher in continuation-passing style: [k] is what must
    match the rest of the input. *)
Fixpoint star (p : ascii -> bool) (k : string -> bool) (s : string) : bool :=
  match s with
  | String c s' => p c && star p k s'
  | EmptyString => false
  end || k s.

Fixpoint run (r : t) (k : string -> bool) (s : string) : bool :=
  match r with
  | Char p =>
      match s with
      | String c s' => p c && k s'
      | EmptyString => false
      end
  | Star p => star p k s
  | Plus p =>
      match s with
      | String c s' => p c && star p k s'
      | EmptyString => false
      end
  | Seq r1 r2 => run r1 (run r2 k) s
  | Alt r1 r2 => run r1 k s || run r2 k s
  | Ahead r' => run r' (fun _ => true) s && k s
  | NotAhead r' => negb (run r' (fun _ => true) s) && k s
  | End =>
      match s with
      | EmptyString => k s
      | String _ _ => false
      end
  end.

(** [!!s.match(r)]: a match starting at some position of [s]. *)
Fixpoint test (r : t) (s : string) : bool :=
  run r (fun _ => true) s ||
  match s with
  | String _ s' => test r s'
  | EmptyString => false
  end.

End Regex.

(** ** Character classes

    Characters are the 256 one-byte code units; of JavaScript's line
    terminators, LF and CR are among them (U+2028 and U+2029 are not). *)

Module CharClass.

Definition between (lo hi : nat) (c : ascii) : bool :=
  let n := nat_of_ascii c in (lo <=? n)%nat && (n <=? hi)%nat.

Definition digit : ascii -> bool := between 48 57.          (* \d *)
Definition upper : ascii -> bool := between 65 90.          (* [A-Z] *)
Definition lower : ascii -> bool := between 97 122.         (* [a-z] *)
Definition word (c : ascii) : bool :=                       (* \w *)
  digit c || upper c || lower c || (nat_of_ascii c =? 95)%nat.
Definition non_word (c : ascii) : bool := negb (word c).    (* \W *)
Definition line_terminator (c : ascii) : bool :=            (* \n, \r *)
  (nat_of_ascii c =? 10)%nat || (nat_of_ascii c =? 13)%nat.
Definition dot (c : ascii) : bool := negb (line_terminator c).   (* . *)
Definition full_stop_or_newline (c : ascii) : bool :=       (* [.\n] *)
  (nat_of_ascii c =? 46)%nat || (nat_of_ascii c =? 10)%nat.

(** Some / every character of a string is in a class. *)
Fixpoint any (p : ascii -> bool) (s : string) : bool :=
  match s with
  | EmptyString => false
  | String c s' => p c || any p s'
  end.

Fixpoint all (p : ascii -> bool) (s : string) : bool :=
  match s with
  | EmptyString => true
  | String c s' => p c && all p s'
  end.

Definition starts_with (p : ascii -> bool) (s : string) : bool :=
  match s with
  | EmptyString => false
  | String c _ => p c
  end.

(** [n] full stops. *)
Fixpoint full_stops (n : nat) : string :=
  match n with
  | O => EmptyString
  | S n' => String "." (full_stops n')
  end.

End CharClass.

(** ** Validation of [AuthCredentialsDto] (src/auth/dto, as the repository's
    tutorial gives it) *)

Module AuthCredentialsValidation.

(** [/((?=.*\d)|(?=.*\W+))(?![.\n])(?=.*[A-Z])(?=.*[a-z]).*$/]. *)
Definition password_pattern : Regex.t :=
  Regex.Seq
    (Regex.Alt
       (Regex.Ahead (Regex.Seq (Regex.Star CharClass.dot)
                               (Regex.Char CharClass.digit)))
       (Regex.Ahead (Regex.Seq (Regex.Star CharClass.dot)
                               (Regex.Plus CharClass.non_word))))
    (Regex.Seq
       (Regex.NotAhead (Regex.Char CharClass.full_stop_or_newline))
       (Regex.Seq
          (Regex.Ahead (Regex.Seq (Regex.Star CharClass.dot)
                                  (Regex.Char CharClass.upper)))
          (Regex.Seq
             (Regex.Ahead (Regex.Seq (Regex.Star CharClass.dot)
                                     (Regex.Char CharClass.lower)))
             (Regex.Seq (Regex.Star CharClass.dot) Regex.End)))).

(** [@MinLength(n)], [@MaxLength(n)], [@Matches(pattern)]. *)
Definition MinLength (n : nat) (s : string) : bool :=
  (n <=? String.length s)%nat.
Definition MaxLength (n : nat) (s : string) : bool :=
  (String.length s <=? n)%nat.
Definition Matches (pattern : Regex.t) (s : string) : bool :=
  Regex.test pattern s.

(** The decorators of [username] and of [password]. *)
Definition username_ok (s : string) : bool := MinLength 4 s && MaxLength 20 s.
Definition password_ok (s : string) : bool :=
  MinLength 8 s && MaxLength 20 s && Matches password_pattern s.

Definition valid (dto : AuthCredentialsDto) : bool :=
  username_ok (dto_username dto) && password_ok (dto_password dto).

End AuthCredentialsValidation.

(** ** The routes of the tasks controller, as its decorators declare them *)

Module TasksRoutes.

(** What of an incoming request a handler can be handed: the authorization
    header, the parsed query, the parsed body and the [:id] of the path.
    [body_status] is [@Body('status')] at its declared type. *)
Record Request : Type := mkRequest {
  authorization : option Jwt;
  query : Js.Props;
  body : Js.Props;
  param_id : string;
  body_status : TaskStatus
}.

(** The five handlers of [TasksController]. *)
Inductive Route : Type :=
| GetTasks              (* @Get() *)
| CreateTask            (* @Post() *)
| GetById               (* @Get(':id') *)
| RemoveTask            (* @Delete(':id') *)
| UpdateTaskStatus.     (* @Patch(':id/status') *)

Definition result (r : Route) : Type :=
  match r with
  | GetTasks => list Task.t
  | RemoveTask => unit
  | CreateTask | GetById | UpdateTaskStatus => Task.t
  end.

(** The guards bound with [@UseGuards] to the controller class or to one of
    its handlers: the class carries [@Controller('tasks')] alone and each
    handler its route decorator alone, so there are none. *)
Definition guards (r : Route) : list (Request -> bool) := [].

(** The parameter decorators of each handler: [@Query()], [@Body()],
    [@Param('id')], [@Body('status')].  No handler is given the
    authorization header or a user. *)
Definition handler {M : Type -> Type} (tasksService : TasksService.t M)
    (r : Route) (req : Request) : M (result r) :=
  match r return M (result r) with
  | GetTasks => TasksController.getTasks tasksService (query req)
  | CreateTask => TasksController.createTask tasksService (body req)
  | GetById => TasksController.getById tasksService (param_id req)
  | RemoveTask => TasksController.removeTask tasksService (param_id req)
  | UpdateTaskStatus =>
      TasksController.updateTaskStatus tasksService (param_id req)
                                       (body_status req)
  end.

(** A request enters the handler when every guard bound to the route lets
    it pass; [None] is a request refused before the handler. *)
Definition dispatch {M : Type -> Type} (tasksService : TasksService.t M)
    (r : Route) (req : Request) : option (M (result r)) :=
  if forallb (fun guard => guard req) (guards r)
  then Some (handler tasksService r req)
  else None.

End TasksRoutes.

(** ** The in-memory service behind the controller

    What a call on the in-memory service gives back, and the service as the
    controller's [tasksService]: [getAllTasks], [createTask] and
    [getTaskById] are its methods of those names; [removeTask] is its by-id
    removal, which the tutorial names [deleteTask]; it has no code for
    [getTaskWithFilters] and [updateTaskStatus], which stay parameters. *)

Inductive JsReply : Type :=
| ReturnsTask (task : Js.Props)
| ReturnsTasks (tasks : list Js.Props)
| ReturnsNothing
| Throws (e : HttpException).

(** A call runs against [this.tasks] and may replace it. *)
Definition InMemory : Type := list Js.Props -> JsReply * list Js.Props.

Module InMemoryWiring.
Section Wiring.
Context (OPEN_value : Js.Value) (uuid : string).
Context (getTaskWithFilters : Js.Props -> InMemory).
Context (updateTaskStatus : string -> TaskStatus -> InMemory).

Definition getAllTasks : InMemory :=
  fun tasks => (ReturnsTasks (InMemoryTasksService.getAllTasks tasks), tasks).

Definition createTask (dto : Js.Props) : InMemory :=
  fun tasks =>
    let created := InMemoryTasksService.createTask OPEN_value uuid dto tasks in
    (ReturnsTask created.1, created.2).

Definition getTaskById (id : string) : InMemory :=
  fun tasks =>
    match InMemoryTasksService.getTaskById id tasks with
    | Resolves task => (ReturnsTask task, tasks)
    | Rejects e => (Throws e, tasks)
    end.

Definition removeTask (id : string) : InMemory :=
  fun tasks => (ReturnsNothing, InMemoryTasksService.deleteTask id tasks).

Definition tasksService : TasksService.t (fun _ => InMemory) :=
  TasksService.mk getAllTasks getTaskWithFilters createTask
                  getTaskById removeTask updateTaskStatus.

End Wiring.
End InMemoryWiring.

(** ** SQL [LIKE]

    [%] stands for any run of characters, [_] for any one character, and a
    backslash (the default escape character) makes the next character
    literal. *)

Module Like.

Inductive Token : Type :=
| AnyString
| AnyChar
| Literal (c : ascii).

Fixpoint tokens (pattern : string) : list Token :=
  match pattern with
  | EmptyString => []
  | String c rest =>
      if Ascii.eqb c "\" then
        match rest with
        | String d rest' => Literal d :: tokens rest'
        | EmptyString => [Literal c]
        end
      else if Ascii.eqb c "%" then AnyString :: tokens rest
      else if Ascii.eqb c "_" then AnyChar :: tokens rest
      else Literal c :: tokens rest
  end.

Fixpoint accepts (ts : list Token) (s : string) {struct ts} : bool :=
  match ts with
  | [] =>
      match s with
      | EmptyString => true
      | String _ _ => false
      end
  | Literal c :: ts' =>
      match s with
      | String d s' => Ascii.eqb c d && accepts ts' s'
      | EmptyString => false
      end
  | AnyChar :: ts' =>
      match s with
      | String _ s' => accepts ts' s'
      | EmptyString => false
      end
  | AnyString :: ts' =>
      (fix skip (s : string) : bool :=
         accepts ts' s ||
         match s with
         | String _ s' => skip s'
         | EmptyString => false
         end) s
  end.

(** [text LIKE pattern]. *)
Definition like (text pattern : string) : bool := accepts (tokens pattern) text.

End Like.

(** ** The query builder, as far as [getTasks] uses it *)

Module TaskQuery.

(** The comparisons [getTasks] writes, with their bound parameter.
    [LOWER] is taken on the one-byte characters, as [Text.toLowerCase]. *)
Inductive Atom : Type :=
| StatusEquals (status : string)     (* task.status = :status *)
| TitleLike (search : string)        (* LOWER(task.title) LIKE LOWER(:search) *)
| DescriptionLike (search : string). (* LOWER(task.description) LIKE LOWER(:search) *)

(** A condition as SQL reads its text: alternatives separated by [OR], each
    a run of comparisons joined by [AND], which binds tighter. *)
Abbreviation Condition := (list (list Atom)).

(** ['task.status = :status']. *)
Definition status_condition (status : string) : Condition :=
  [[StatusEquals status]].

(** ['LOWER(task.title) LIKE LOWER(:search) OR
     LOWER(task.description) LIKE LOWER(:search)']. *)
Definition search_condition (search : string) : Condition :=
  [[TitleLike search]; [DescriptionLike search]].

(** [query.andWhere(text, parameters)]: the text is appended after [AND] as
    it is, without parentheses, so the [AND] joins the last alternative
    written so far with the first alternative of the new text. *)
Definition andWhere (where_ : option Condition) (c : Condition)
  : option Condition :=
  match where_ with
  | None => Some c
  | Some w =>
      Some (List.removelast w ++ [List.last w [] ++ List.hd [] c]
            ++ List.tl c)%list
  end.

Definition holds (a : Atom) (t : Task.t) : bool :=
  match a with
  | StatusEquals status => String.eqb (TaskStatus_name (Task.status t)) status
  | TitleLike search =>
      Like.like (Text.toLowerCase (Task.title t)) (Text.toLowerCase search)
  | DescriptionLike search =>
      Like.like (Text.toLowerCase (Task.description t))
                (Text.toLowerCase search)
  end.

Definition satisfies (c : Condition) (t : Task.t) : bool :=
  existsb (forallb (fun a => holds a t)) c.

(** [query.getMany()]: the rows of the tasks table that satisfy the
    condition, all of them when there is none. *)
Definition getMany (where_ : option Condition) (db : TasksDb) : list Task.t :=
  match where_ with
  | None => (map_to_list db).*2
  | Some c => List.filter (satisfies c) (map_to_list db).*2
  end.

End TaskQuery.

(** [GetTasksFilterDto]: [{ search?: string; status?: TaskStatus }]. *)
Record GetTasksFilterDto : Type := mkFilterDto {
  filter_search : option string;
  filter_status : option string
}.

(** ** The repository-backed filter (src/tasks/tasks.service.ts with the
    query builder, as the repository's tutorial gives it) *)

Module RepositoryTasksService.

(** [if (x)] for an optional string: present and not empty. *)
Definition given (x : option string) : option string :=
  match x with
  | Some s => if String.eqb s "" then None else Some s
  | None => None
  end.

(** [async getTasks(filterDto: GetTasksFilterDto): Promise<Task[]>]. *)
Definition getTasks (filterDto : GetTasksFilterDto) : Svc (list Task.t) :=
  fun db =>
    let search := filter_search filterDto in
    let status := filter_status filterDto in
    let query := None in
    let query :=
      match given status with
      | Some status => TaskQuery.andWhere query (TaskQuery.status_condition status)
      | None => query
      end in
    let query :=
      match given search with
      | Some search =>
          TaskQuery.andWhere query
            (TaskQuery.search_condition ("%" ++ search ++ "%"))
      | None => query
      end in
    (Resolves (TaskQuery.getMany query db), db).

End RepositoryTasksService.

(** * Properties *)

(** ** The [catch] clause of [signUp] *)

Lemma is_duplicate_username_spec error :
  AuthService.is_duplicate_username error = true <-> CarriesDuplicateCode error.
Proof.
  unfold AuthService.is_duplicate_username, CarriesDuplicateCode.
  split.
  - intros Hc. destruct error as [| |b|n| |s|props|props]; simpl in Hc;
      try discriminate;
      try (rewrite ?andb_false_r in Hc; simpl in Hc; discriminate).
    exists props. split; [reflexivity|].
    unfold Js.has, Js.get in Hc. simpl in Hc.
    destruct (Js.lookup_prop "code" props) as [v|]; [|discriminate].
    simpl in Hc. destruct v; simpl in Hc; try discriminate.
    apply String.eqb_eq in Hc. by subst.
  - intros (props & -> & Hl). unfold Js.has, Js.get. simpl. by rewrite Hl.
Qed.

Lemma not_duplicate_by_test error :
  AuthService.is_duplicate_username error = false -> ~ CarriesDuplicateCode error.
Proof.
  intros Hf Hc. apply is_duplicate_username_spec in Hc. congruence.
Qed.

(** The three families the catch clause sends to the generic error. *)
Lemma non_object_not_duplicate error :
  Js.typeof error <> "object" -> ~ CarriesDuplicateCode error.
Proof. intros Hty (props & -> & _). by apply Hty. Qed.

Lemma codeless_object_not_duplicate props :
  Js.lookup_prop "code" props = None -> ~ CarriesDuplicateCode (Js.Object props).
Proof. intros Hn (props' & Heq & Hl). injection Heq as <-. congruence. Qed.

Lemma numeric_code_not_duplicate n rest :
  ~ CarriesDuplicateCode (Js.Object (("code", Js.Number n) :: rest)).
Proof. intros (props' & Heq & Hl). injection Heq as <-. discriminate. Qed.

Lemma unique_violation_is_duplicate :
  CarriesDuplicateCode UsersRepository.unique_violation.
Proof. eexists. split; reflexivity. Qed.

(** ** The credential store *)

Lemma findOne_username name db u :
  UsersRepository.findOne name db = Some u -> User.username u = name /\ u ∈ db.
Proof.
  unfold UsersRepository.findOne. induction db as [|x db IH]; simpl; [done|].
  destruct (String.eqb (User.username x) name) eqn:E.
  - intros [= <-]. apply String.eqb_eq in E. split; [done | left].
  - intros Hf. destruct (IH Hf) as [? ?]. split; [done | by right].
Qed.

Lemma findOne_appended name db u :
  UsersRepository.findOne name db = None ->
  User.username u = name ->
  UsersRepository.findOne name (db ++ [u]) = Some u.
Proof.
  unfold UsersRepository.findOne. intros Hn Hu.
  induction db as [|x db IH]; simpl in *.
  - by rewrite Hu, String.eqb_refl.
  - destruct (String.eqb (User.username x) name); [done | by apply IH].
Qed.

Lemma save_fresh env name hash db :
  failure env = None ->
  UsersRepository.findOne name db = None ->
  UsersRepository.save env (UsersRepository.create name hash) db =
  UsersRepository.Saved (db ++ [User.mk (generated_id env) name hash]).
Proof.
  intros Hf Hn. unfold UsersRepository.save, UsersRepository.create.
  simpl. by rewrite Hf, Hn.
Qed.

Lemma save_throws_cases env draft db error :
  UsersRepository.save env draft db = UsersRepository.SaveThrows error ->
  failure env = Some error \/
  (failure env = None /\ error = UsersRepository.unique_violation /\
   is_Some (UsersRepository.findOne (fst draft) db)).
Proof.
  unfold UsersRepository.save.
  destruct (failure env) as [e|]; [intros [= <-]; by left|].
  destruct (UsersRepository.findOne (fst draft) db) eqn:E; [|done].
  intros [= <-]. right. eauto.
Qed.

(** ** The reference hashing instance keeps the library's contract *)

Lemma prefix_app (p rest : string) : String.prefix p (p ++ rest) = true.
Proof.
  induction p as [|c p IH]; simpl; [by destruct rest|].
  rewrite IH. by destruct (ascii_dec c c).
Qed.

Lemma demo_bcrypt_sound : @BcryptSound demo_bcrypt.
Proof.
  intros plaintext salt. simpl.
  replace (plaintext ++ "$" ++ salt)%string
    with ((plaintext ++ "$") ++ salt)%string.
  - apply prefix_app.
  - induction plaintext as [|c p IH]; [reflexivity|].
    change (String c ((p ++ "$") ++ salt) = String c (p ++ "$" ++ salt))%string.
    by rewrite IH.
Qed.

(** ** AuthService.signUp *)

Lemma signUp_on_throw `{Bcrypt} salt env dto db error :
  UsersRepository.save env
    (UsersRepository.create (dto_username dto)
                            (bcrypt_hash (dto_password dto) salt)) db
    = UsersRepository.SaveThrows error ->
  AuthService.signUp salt env dto db =
  (Rejects (if AuthService.is_duplicate_username error
            then UsernameTaken else StorageUnavailable), db).
Proof.
  intros Hsave. unfold AuthService.signUp. rewrite Hsave.
  by destruct (AuthService.is_duplicate_username error).
Qed.

Lemma signUp_persists `{Bcrypt} salt env dto db :
  failure env = None ->
  UsersRepository.findOne (dto_username dto) db = None ->
  AuthService.signUp salt env dto db =
  (Resolves tt,
   (db ++ [User.mk (generated_id env) (dto_username dto)
                   (bcrypt_hash (dto_password dto) salt)])%list).
Proof.
  intros Hf Hn. unfold AuthService.signUp.
  by rewrite (save_fresh _ _ _ _ Hf Hn).
Qed.

(** C9: whenever persisting the user throws a value that is not an object
    carrying a [code] property strictly equal to the string ['23505'] (a
    non-object, an object without a code, a numeric code 23505, ...),
    [signUp] fails with the generic internal-server error and leaves the
    store as it was; the outcome is that fixed exception, so nothing of the
    raw store error reaches the caller. *)
Theorem signUp_unrecognised_error_is_internal `{Bcrypt}
    (salt : string) (env : StoreOracle) (dto : AuthCredentialsDto)
    (db : UsersDb) (error : Js.Value) :
  UsersRepository.save env
    (UsersRepository.create (dto_username dto)
                            (bcrypt_hash (dto_password dto) salt)) db
    = UsersRepository.SaveThrows error ->
  ~ CarriesDuplicateCode error ->
  AuthService.signUp salt env dto db = (Rejects StorageUnavailable, db).
Proof.
  intros Hsave Hnot. rewrite (signUp_on_throw _ _ _ _ _ Hsave).
  destruct (AuthService.is_duplicate_username error) eqn:E; [|reflexivity].
  apply is_duplicate_username_spec in E. contradiction.
Qed.

Lemma signUp_unrecognised_error_is_internal_witness :
  let env := mkOracle "7f3a" (Some (Js.Object [("code", Js.Number 23505)])) in
  let dto := mkCredentials "alice" "Passw0rd!" in
  (UsersRepository.save env
     (UsersRepository.create "alice"
        (@bcrypt_hash demo_bcrypt "Passw0rd!" "s1")) []
   = UsersRepository.SaveThrows (Js.Object [("code", Js.Number 23505)]))
  /\ ~ CarriesDuplicateCode (Js.Object [("code", Js.Number 23505)])
  /\ @AuthService.signUp demo_bcrypt "s1" env dto []
     = (Rejects StorageUnavailable, []).
Proof.
  intros env dto.
  assert (Hs : UsersRepository.save env
     (UsersRepository.create (dto_username dto)
        (@bcrypt_hash demo_bcrypt (dto_password dto) "s1")) []
   = UsersRepository.SaveThrows (Js.Object [("code", Js.Number 23505)]))
    by reflexivity.
  assert (Hn : ~ CarriesDuplicateCode (Js.Object [("code", Js.Number 23505)]))
    by apply numeric_code_not_duplicate.
  split; [exact Hs|]. split; [exact Hn|].
  exact (@signUp_unrecognised_error_is_internal demo_bcrypt "s1" env dto []
           _ Hs Hn).
Defined.

(** C4: [signUp] has three outcomes.  When the username is already stored
    (the store then refuses the row for uniqueness) it fails with
    UsernameTaken, a conflict, whatever the password and the salt; when the
    store fails for another reason (it throws a value that is not a
    23505-coded object) it fails with StorageUnavailable; when the row is
    persisted it resolves with nothing.  A failed [signUp] leaves the store
    unchanged. *)
Theorem signUp_outcomes `{Bcrypt}
    (salt : string) (env : StoreOracle) (dto : AuthCredentialsDto)
    (db : UsersDb) :
  (failure env = None ->
   is_Some (UsersRepository.findOne (dto_username dto) db) ->
   forall password' salt',
     AuthService.signUp salt' env (mkCredentials (dto_username dto) password') db
     = (Rejects UsernameTaken, db))
  /\
  (forall error,
     failure env = Some error -> ~ CarriesDuplicateCode error ->
     AuthService.signUp salt env dto db = (Rejects StorageUnavailable, db))
  /\
  (failure env = None ->
   UsersRepository.findOne (dto_username dto) db = None ->
   AuthService.signUp salt env dto db =
   (Resolves tt,
    (db ++ [User.mk (generated_id env) (dto_username dto)
                    (bcrypt_hash (dto_password dto) salt)])%list)).
Proof.
  split; [|split].
  - intros Hf [u Hu] password' salt'.
    unfold AuthService.signUp, UsersRepository.save, UsersRepository.create.
    simpl. by rewrite Hf, Hu.
  - intros error Hf Hnot.
    rewrite (signUp_on_throw salt env dto db error).
    + destruct (AuthService.is_duplicate_username error) eqn:E; [|done].
      apply is_duplicate_username_spec in E. contradiction.
    + unfold UsersRepository.save. by rewrite Hf.
  - apply signUp_persists.
Qed.

Lemma signUp_outcomes_witness :
  let alice := User.mk "7f3a" "alice" "Passw0rd!$s1" in
  let healthy := mkOracle "91bc" None in
  let down := mkOracle "91bc" (Some (Js.String "ECONNREFUSED")) in
  @AuthService.signUp demo_bcrypt "s2" healthy
     (mkCredentials "alice" "Another1!") [alice]
    = (Rejects (ConflictException "Username already exists"), [alice])
  /\ @AuthService.signUp demo_bcrypt "s2" down
       (mkCredentials "bob" "Another1!") [alice]
     = (Rejects InternalServerErrorException, [alice])
  /\ @AuthService.signUp demo_bcrypt "s2" healthy
       (mkCredentials "bob" "Another1!") [alice]
     = (Resolves tt, [alice; User.mk "91bc" "bob" "Another1!$s2"]).
Proof.
  intros alice healthy down.
  split; [|split].
  - apply (proj1 (@signUp_outcomes demo_bcrypt "s1" healthy
                    (mkCredentials "alice" "Passw0rd!") [alice]));
      [reflexivity | by eexists].
  - apply (proj1 (proj2 (@signUp_outcomes demo_bcrypt "s2" down
                    (mkCredentials "bob" "Another1!") [alice]))
             (Js.String "ECONNREFUSED")); [reflexivity|].
    apply non_object_not_duplicate. discriminate.
  - apply (proj2 (proj2 (@signUp_outcomes demo_bcrypt "s2" healthy
                    (mkCredentials "bob" "Another1!") [alice])));
      reflexivity.
Defined.

(** ** AuthService.signIn *)

(** C3: signing in with a username that has no stored user, and signing in
    with a stored username but a password that does not verify against the
    stored hash, both fail, and with the very same InvalidCredentials
    exception: the two rejections are equal values. *)
Theorem signIn_failures_identical `{Bcrypt} `{JwtSigner}
    (now now' : Z) (db db' : UsersDb)
    (unknown wrong : AuthCredentialsDto) (u : User.t) :
  UsersRepository.findOne (dto_username unknown) db = None ->
  UsersRepository.findOne (dto_username wrong) db' = Some u ->
  bcrypt_compare (dto_password wrong) (User.password u) = false ->
  AuthService.signIn now unknown db = Rejects InvalidCredentials /\
  AuthService.signIn now' wrong db' = Rejects InvalidCredentials /\
  AuthService.signIn now unknown db = AuthService.signIn now' wrong db'.
Proof.
  intros Hnone Hsome Hcmp. unfold AuthService.signIn.
  rewrite Hnone, Hsome, Hcmp. done.
Qed.

Lemma signIn_failures_identical_witness :
  let alice := User.mk "7f3a" "alice" "Passw0rd!$s1" in
  @AuthService.signIn demo_bcrypt demo_signer 100
     (mkCredentials "mallory" "Passw0rd!") [alice]
    = Rejects InvalidCredentials
  /\ @AuthService.signIn demo_bcrypt demo_signer 100
       (mkCredentials "alice" "wrong") [alice]
     = Rejects InvalidCredentials
  /\ @AuthService.signIn demo_bcrypt demo_signer 100
       (mkCredentials "mallory" "Passw0rd!") [alice]
     = @AuthService.signIn demo_bcrypt demo_signer 100
         (mkCredentials "alice" "wrong") [alice].
Proof.
  intros alice.
  apply (@signIn_failures_identical demo_bcrypt demo_signer 100 100
           [alice] [alice] (mkCredentials "mallory" "Passw0rd!")
           (mkCredentials "alice" "wrong") alice); reflexivity.
Defined.



(** ** The tasks controller *)

(** C10: [getTasks] forwards to the filtered query exactly when the parsed
    filter object has at least one key, whatever the key, and to the
    return-all path exactly when the object is empty; an object with only an
    unrecognised key is routed to the filtered query. *)
Theorem getTasks_dispatch (filtersDto : Js.Props) :
  (TasksController.getTasks recorder filtersDto
     = CallGetTaskWithFilters filtersDto <-> Js.keys filtersDto <> []) /\
  (TasksController.getTasks recorder filtersDto
     = CallGetAllTasks <-> Js.keys filtersDto = []) /\
  (forall (M : Type -> Type) (svc : TasksService.t M),
     TasksController.getTasks svc filtersDto =
     match Js.keys filtersDto with
     | [] => TasksService.getAllTasks svc
     | _ :: _ => TasksService.getTaskWithFilters svc filtersDto
     end) /\
  (forall key value,
     TasksController.getTasks recorder [(key, value)]
     = CallGetTaskWithFilters [(key, value)]).
Proof.
  unfold TasksController.getTasks, Js.keys.
  destruct filtersDto as [|[k v] rest]; simpl; repeat split;
    try done; try (intros; congruence).
Qed.

(** ** The task routes and the caller *)

(** C2: the five task routes carry no guard, so no authentication check
    runs before their handlers: whatever the authorization header of a
    request (missing, expired or tampered included), it is dispatched
    straight to the handler.  On the in-memory service a list request
    without any token is answered with every stored task, not with
    Unauthenticated. *)
Theorem task_routes_run_without_a_token
    (OPEN_value : Js.Value) (uuid : string)
    (getTaskWithFilters : Js.Props -> InMemory)
    (updateTaskStatus : string -> TaskStatus -> InMemory) :
  let svc := InMemoryWiring.tasksService OPEN_value uuid
               getTaskWithFilters updateTaskStatus in
  (forall (M : Type -> Type) (tasksService : TasksService.t M) route req,
     TasksRoutes.dispatch tasksService route req
     = Some (TasksRoutes.handler tasksService route req)) /\
  (forall body id status tasks,
     TasksRoutes.handler svc TasksRoutes.GetTasks
       (TasksRoutes.mkRequest None [] body id status) tasks
     = (ReturnsTasks tasks, tasks)) /\
  (forall (M : Type -> Type) (tasksService : TasksService.t M) route
          token token' query body id status,
     TasksRoutes.handler tasksService route
       (TasksRoutes.mkRequest token query body id status)
     = TasksRoutes.handler tasksService route
         (TasksRoutes.mkRequest token' query body id status)).
Proof. intros svc. split; [|split]; reflexivity. Qed.

(** C1: a task that one caller created is returned to, listed for and
    removed by any other caller.  The handlers receive nothing of the
    caller, and the by-id lookup and removal of the service test the id
    alone: after a create request, a get request for the generated id with
    any authorization header at all returns that task, a list request
    contains it, and a remove request deletes it; none answers NotFound. *)
Theorem any_caller_reads_and_removes_a_task_by_id
    (OPEN_value : Js.Value) (uuid : string)
    (getTaskWithFilters : Js.Props -> InMemory)
    (updateTaskStatus : string -> TaskStatus -> InMemory)
    (creator other : option Jwt) :
  let svc := InMemoryWiring.tasksService OPEN_value uuid
               getTaskWithFilters updateTaskStatus in
  let dto := [("title", Js.String "buy milk");
              ("description", Js.String "2%")] in
  let task := [("id", Js.String uuid); ("title", Js.String "buy milk");
               ("description", Js.String "2%"); ("status", OPEN_value)] in
  TasksRoutes.handler svc TasksRoutes.CreateTask
    (TasksRoutes.mkRequest creator [] dto "" OPEN) []
    = (ReturnsTask task, [task]) /\
  TasksRoutes.handler svc TasksRoutes.GetById
    (TasksRoutes.mkRequest other [] [] uuid OPEN) [task]
    = (ReturnsTask task, [task]) /\
  TasksRoutes.handler svc TasksRoutes.GetTasks
    (TasksRoutes.mkRequest other [] [] "" OPEN) [task]
    = (ReturnsTasks [task], [task]) /\
  TasksRoutes.handler svc TasksRoutes.RemoveTask
    (TasksRoutes.mkRequest other [] [] uuid OPEN) [task]
    = (ReturnsNothing, []).
Proof.
  intros svc dto task.
  split; [reflexivity|]. split; [|split; [reflexivity|]].
  - cbv [TasksRoutes.handler TasksController.getById TasksService.getTaskById
         svc InMemoryWiring.tasksService InMemoryWiring.getTaskById
         InMemoryTasksService.getTaskById TasksRoutes.param_id].
    assert (Hid : InMemoryTasksService.has_id uuid task = true)
      by apply String.eqb_refl.
    cbn [find]. by rewrite Hid.
  - cbv [TasksRoutes.handler TasksController.removeTask TasksService.removeTask
         svc InMemoryWiring.tasksService InMemoryWiring.removeTask
         InMemoryTasksService.deleteTask TasksRoutes.param_id].
    assert (Hid : InMemoryTasksService.has_id uuid task = true)
      by apply String.eqb_refl.
    cbn [List.filter]. by rewrite Hid.
Qed.

(** C7: the task a create request yields has status OPEN whatever status
    the body supplies, but no owner is recorded for it: the handler is given
    no caller, and the object built is the generated id, the body's own
    properties and the status.  It has no [userId] or [user] unless the body
    supplies one, and then it is the body's. *)
Theorem created_task_is_open_but_has_no_owner
    (OPEN_value : Js.Value) (uuid : string)
    (getTaskWithFilters : Js.Props -> InMemory)
    (updateTaskStatus : string -> TaskStatus -> InMemory)
    (caller : option Jwt) (claimed : Js.Value) :
  let svc := InMemoryWiring.tasksService OPEN_value uuid
               getTaskWithFilters updateTaskStatus in
  let dto := [("title", Js.String "buy milk");
              ("description", Js.String "2%");
              ("status", Js.String "DONE")] in
  let task := [("id", Js.String uuid); ("title", Js.String "buy milk");
               ("description", Js.String "2%"); ("status", OPEN_value)] in
  TasksRoutes.handler svc TasksRoutes.CreateTask
    (TasksRoutes.mkRequest caller [] dto "" OPEN) []
    = (ReturnsTask task, [task]) /\
  Js.lookup_prop "status" task = Some OPEN_value /\
  Js.lookup_prop "userId" task = None /\
  Js.lookup_prop "user" task = None /\
  Js.lookup_prop "userId"
    (InMemoryTasksService.createTask OPEN_value uuid
       (("userId", claimed) :: dto) []).1 = Some claimed.
Proof. intros svc dto task. repeat split; reflexivity. Qed.

(** ** The filter query *)

(** C8: the filter query returns tasks the claim excludes.  Its two
    conditions are joined as text, so with a status and a search term it
    reads (status AND title) OR description: a task whose description holds
    the term is listed whatever its status.  The term is used as a LIKE
    pattern, so [_] and [%] in it are wildcards, not characters to find.
    And no caller takes part: the task is listed whoever owns it.  On the
    same inputs the specification's reading of the filter leaves the task
    out. *)
Theorem filter_query_lists_tasks_the_claim_excludes
    (status : TaskStatus) (owner caller : User.t) :
  let task := Task.mk "t1" "walk" "buy milk" status owner in
  let db : TasksDb := {["t1" := task]} in
  (forall s p,
     TaskQuery.andWhere (TaskQuery.andWhere None (TaskQuery.status_condition s))
                        (TaskQuery.search_condition p)
     = Some [[TaskQuery.StatusEquals s; TaskQuery.TitleLike p];
             [TaskQuery.DescriptionLike p]]) /\
  RepositoryTasksService.getTasks
    (mkFilterDto (Some "milk") (Some "OPEN")) db = (Resolves [task], db) /\
  RepositoryTasksService.getTasks
    (mkFilterDto (Some "m_lk") None) db = (Resolves [task], db) /\
  RepositoryTasksService.getTasks
    (mkFilterDto (Some "b%k") None) db = (Resolves [task], db) /\
  (status <> OPEN ->
   SpecTasksService.matches
     (SpecTasksService.mkFilter (Some "OPEN") (Some "milk")) task = false) /\
  SpecTasksService.matches
    (SpecTasksService.mkFilter None (Some "m_lk")) task = false /\
  SpecTasksService.matches
    (SpecTasksService.mkFilter None (Some "b%k")) task = false.
Proof.
  intros task db. subst task db.
  split; [reflexivity|].
  assert (Hrows : forall t : Task.t,
            (map_to_list ({["t1" := t]} : TasksDb)).*2 = [t])
    by (intros t; by rewrite map_to_list_singleton).
  unfold RepositoryTasksService.getTasks, TaskQuery.getMany. cbn -[map_to_list].
  rewrite !Hrows.
  repeat split; try (by destruct status); by destruct status; vm_compute.
Qed.

(** ** The access guard *)







(** * Further properties of the code *)

(** ** The [catch] clause cannot fail itself *)

(** X1: the condition of [signUp]'s [catch] clause never raises: evaluated
    operator by operator, with [in] and the member read raising a TypeError
    where JavaScript does, it completes normally on every thrown value, with
    the value of the boolean test.  The two leading guards are what makes
    this so: [in] is only reached on a truthy value whose [typeof] is
    ['object'], where it is defined, whereas it would raise on [null] (which
    passes the [typeof] guard alone) and on a non-empty string (which passes
    the truthiness guard alone). *)
Theorem catch_condition_never_raises (error : Js.Value) :
  CatchClause.condition error
    = CatchClause.Normal (AuthService.is_duplicate_username error) /\
  (Js.truthy error = true -> Js.typeof error = "object" ->
   CatchClause.in_operator "code" error
     = CatchClause.Normal (Js.has "code" error)) /\
  (Js.typeof Js.Null = "object" /\
   CatchClause.in_operator "code" Js.Null = CatchClause.ThrowsTypeError) /\
  (forall s, s <> "" ->
     Js.truthy (Js.String s) = true /\
     CatchClause.in_operator "code" (Js.String s)
       = CatchClause.ThrowsTypeError).
Proof.
  split; [|split; [|split]].
  - unfold CatchClause.condition, AuthService.is_duplicate_username.
    destruct error as [| |b|n| |s|props|props]; simpl; try reflexivity.
    + by destruct b.
    + by destruct (negb (n =? 0)%Z).
    + by destruct (negb (String.eqb s "")).
    + unfold Js.has, Js.get; simpl.
      by destruct (Js.lookup_prop "code" props).
  - destruct error; simpl; try discriminate; done.
  - done.
  - intros s Hs. split; [|done]. simpl.
    destruct s; [done | reflexivity].
Qed.

(** ** Which failures [signUp] reports as a taken username *)

(** X2: when persisting throws, [signUp] answers "Username already exists"
    exactly when the thrown value is an object whose [code] is the string
    ['23505'], and the generic server error exactly when it is not; the
    decision looks at nothing else, so a 23505-coded failure is reported as
    a taken username even if the username is not stored at all. *)
Theorem signUp_conflict_iff_duplicate_code `{Bcrypt}
    (salt : string) (env : StoreOracle) (dto : AuthCredentialsDto)
    (db : UsersDb) (error : Js.Value) :
  UsersRepository.save env
    (UsersRepository.create (dto_username dto)
                            (bcrypt_hash (dto_password dto) salt)) db
    = UsersRepository.SaveThrows error ->
  (AuthService.signUp salt env dto db = (Rejects UsernameTaken, db)
     <-> CarriesDuplicateCode error) /\
  (AuthService.signUp salt env dto db = (Rejects StorageUnavailable, db)
     <-> ~ CarriesDuplicateCode error).
Proof.
  intros Hsave. rewrite (signUp_on_throw _ _ _ _ _ Hsave).
  rewrite <- is_duplicate_username_spec.
  destruct (AuthService.is_duplicate_username error); split; split;
    try done; try (intros [= ?]; done); intros Hc; by destruct Hc.
Qed.

Lemma signUp_conflict_iff_duplicate_code_witness :
  let foreign := Js.Object [("code", Js.String "23505");
                            ("constraint", Js.String "tasks_pkey")] in
  let env := mkOracle "7f3a" (Some foreign) in
  let dto := mkCredentials "alice" "Passw0rd!" in
  UsersRepository.findOne "alice" [] = None /\
  UsersRepository.save env
    (UsersRepository.create "alice" (@bcrypt_hash demo_bcrypt "Passw0rd!" "s1"))
    [] = UsersRepository.SaveThrows foreign /\
  @AuthService.signUp demo_bcrypt "s1" env dto []
    = (Rejects (ConflictException "Username already exists"), []).
Proof.
  intros foreign env dto.
  assert (Hs : UsersRepository.save env
     (UsersRepository.create (dto_username dto)
        (@bcrypt_hash demo_bcrypt (dto_password dto) "s1")) []
     = UsersRepository.SaveThrows foreign) by reflexivity.
  split; [reflexivity|]. split; [exact Hs|].
  apply (proj1 (@signUp_conflict_iff_duplicate_code demo_bcrypt "s1" env
                  dto [] foreign Hs)).
  eexists. split; reflexivity.
Defined.

(** ** How sign-ups and sign-ins compose *)

Lemma findOne_other_appended name db u :
  User.username u <> name ->
  UsersRepository.findOne name (db ++ [u]) = UsersRepository.findOne name db.
Proof.
  intros Hne. unfold UsersRepository.findOne.
  induction db as [|x db IH]; simpl.
  - destruct (String.eqb_spec (User.username u) name); [contradiction | done].
  - by destruct (String.eqb (User.username x) name).
Qed.

Lemma signUp_table `{Bcrypt} salt env dto db :
  (AuthService.signUp salt env dto db).2 = db \/
  (UsersRepository.findOne (dto_username dto) db = None /\
   (AuthService.signUp salt env dto db).2 =
   (db ++ [User.mk (generated_id env) (dto_username dto)
                   (bcrypt_hash (dto_password dto) salt)])%list).
Proof.
  unfold AuthService.signUp, UsersRepository.save, UsersRepository.create.
  simpl. destruct (failure env) as [e|].
  - left. by destruct (AuthService.is_duplicate_username e).
  - destruct (UsersRepository.findOne (dto_username dto) db) eqn:E.
    + left. by destruct (AuthService.is_duplicate_username _).
    + right. done.
Qed.

(** X3: a second sign-up under a stored username cannot take the account
    over.  After [signUp(u, p1)] succeeded, a later [signUp(u, p2)] with
    the store up is refused with the conflict and leaves the users table as
    it was; [signIn(u, p1)] still succeeds, and [signIn(u, p2)] is decided by
    the hash of [p1] alone. *)
Theorem second_signUp_cannot_take_over `{Bcrypt} `{!BcryptSound} `{JwtSigner}
    (salt1 salt2 : string) (env1 env2 : StoreOracle) (now : Z)
    (u p1 p2 : string) (db : UsersDb) :
  failure env1 = None ->
  failure env2 = None ->
  UsersRepository.findOne u db = None ->
  let db1 := (AuthService.signUp salt1 env1 (mkCredentials u p1) db).2 in
  AuthService.signUp salt2 env2 (mkCredentials u p2) db1
    = (Rejects UsernameTaken, db1) /\
  (exists token,
     AuthService.signIn now (mkCredentials u p1) db1
       = Resolves (mkSignInResult token)) /\
  (bcrypt_compare p2 (bcrypt_hash p1 salt1) = false ->
   AuthService.signIn now (mkCredentials u p2) db1
     = Rejects InvalidCredentials).
Proof.
  intros Hf1 Hf2 Hfresh db1.
  assert (Hdb1 : db1 = (db ++ [User.mk (generated_id env1) u
                                  (bcrypt_hash p1 salt1)])%list).
  { subst db1. by rewrite (signUp_persists salt1 env1 (mkCredentials u p1) db). }
  assert (Hfind : UsersRepository.findOne u db1
                  = Some (User.mk (generated_id env1) u (bcrypt_hash p1 salt1))).
  { rewrite Hdb1. by apply findOne_appended. }
  split; [|split].
  - unfold AuthService.signUp, UsersRepository.save, UsersRepository.create.
    simpl. by rewrite Hf2, Hfind.
  - unfold AuthService.signIn. simpl. rewrite Hfind. simpl.
    rewrite compare_hash. by eexists.
  - intros Hcmp. unfold AuthService.signIn. simpl. rewrite Hfind. simpl.
    by rewrite Hcmp.
Qed.

Lemma second_signUp_cannot_take_over_witness :
  let env1 := mkOracle "7f3a" None in
  let env2 := mkOracle "91bc" None in
  let db1 := [User.mk "7f3a" "alice" "Passw0rd!$s1"] in
  @AuthService.signUp demo_bcrypt "s2" env2
     (mkCredentials "alice" "Hijack3d!") db1
    = (Rejects UsernameTaken, db1) /\
  (exists token,
     @AuthService.signIn demo_bcrypt demo_signer 100
        (mkCredentials "alice" "Passw0rd!") db1
       = Resolves (mkSignInResult token)) /\
  @AuthService.signIn demo_bcrypt demo_signer 100
     (mkCredentials "alice" "Hijack3d!") db1
    = Rejects InvalidCredentials.
Proof.
  intros env1 env2 db1.
  destruct (@second_signUp_cannot_take_over demo_bcrypt demo_bcrypt_sound
              demo_signer "s1" "s2" env1 env2 100 "alice" "Passw0rd!"
              "Hijack3d!" [] eq_refl eq_refl eq_refl) as (H1 & H2 & H3).
  split; [exact H1|]. split; [exact H2|]. apply H3. reflexivity.
Defined.

(** X4: a sign-up leaves every other account alone: whatever it does
    (succeed, conflict, or fail), [signIn] under a different username gives
    the same outcome on the table it leaves as on the table before. *)
Theorem signUp_leaves_other_accounts `{Bcrypt} `{JwtSigner}
    (salt : string) (env : StoreOracle) (now : Z)
    (newcomer other : AuthCredentialsDto) (db : UsersDb) :
  dto_username newcomer <> dto_username other ->
  AuthService.signIn now other (AuthService.signUp salt env newcomer db).2
    = AuthService.signIn now other db.
Proof.
  intros Hne.
  destruct (signUp_table salt env newcomer db) as [-> | [_ ->]]; [done|].
  unfold AuthService.signIn. by rewrite findOne_other_appended.
Qed.

Lemma signUp_leaves_other_accounts_witness :
  let alice := User.mk "7f3a" "alice" "Passw0rd!$s1" in
  let env := mkOracle "91bc" None in
  "bob" <> "alice" /\
  @AuthService.signIn demo_bcrypt demo_signer 100
     (mkCredentials "alice" "Passw0rd!")
     (@AuthService.signUp demo_bcrypt "s2" env
        (mkCredentials "bob" "Another1!") [alice]).2
  = @AuthService.signIn demo_bcrypt demo_signer 100
      (mkCredentials "alice" "Passw0rd!") [alice].
Proof.
  intros alice env.
  assert (Hne : "bob" <> "alice") by discriminate.
  split; [exact Hne|].
  exact (@signUp_leaves_other_accounts demo_bcrypt demo_signer "s2" env 100
           (mkCredentials "bob" "Another1!")
           (mkCredentials "alice" "Passw0rd!") [alice] Hne).
Defined.

(** ** The token consumer *)

(** X5: [JwtStrategy.validate] answers with a stored row whose username is
    exactly the payload's, or rejects with a bare 401 when there is none.
    For the claims of a token that [signIn] issued, on the same users table,
    it returns the very row whose hash verified the password; once that
    username is gone from the table it rejects. *)
Theorem validate_returns_signed_in_row `{Bcrypt} `{JwtSigner}
    (now : Z) (dto : AuthCredentialsDto) (db : UsersDb) (token : Jwt) :
  AuthService.signIn now dto db = Resolves (mkSignInResult token) ->
  exists payload user,
    JwtStrategy.payload_of (jwt_payload token) = Some payload /\
    payload_username payload = dto_username dto /\
    JwtStrategy.validate payload db = Resolves user /\
    user ∈ db /\
    User.username user = dto_username dto /\
    bcrypt_compare (dto_password dto) (User.password user) = true /\
    (forall db', UsersRepository.findOne (dto_username dto) db' = None ->
       JwtStrategy.validate payload db' = Rejects (UnauthorizedException None)).
Proof.
  unfold AuthService.signIn.
  destruct (UsersRepository.findOne (dto_username dto) db) as [u|] eqn:Ef;
    [|done].
  destruct (bcrypt_compare (dto_password dto) (User.password u)) eqn:Ec;
    [|done].
  intros [= <-].
  destruct (findOne_username _ _ _ Ef) as [Hu Hin].
  exists (mkJwtPayload (dto_username dto)), u.
  split; [|split; [done|split; [|split; [done|split; [done|split; [done|]]]]]].
  - reflexivity.
  - unfold JwtStrategy.validate. simpl. by rewrite Ef.
  - intros db' Hgone. unfold JwtStrategy.validate. simpl. by rewrite Hgone.
Qed.

Lemma validate_returns_signed_in_row_witness :
  let alice := User.mk "7f3a" "alice" "Passw0rd!$s1" in
  let bob := User.mk "91bc" "bob" "Another1!$s2" in
  let dto := mkCredentials "alice" "Passw0rd!" in
  let token := @JwtService.sign demo_signer 100 [("username", Js.String "alice")] in
  @AuthService.signIn demo_bcrypt demo_signer 100 dto [bob; alice]
    = Resolves (mkSignInResult token) /\
  JwtStrategy.validate (mkJwtPayload "alice") [bob; alice] = Resolves alice /\
  JwtStrategy.validate (mkJwtPayload "alice") [bob]
    = Rejects (UnauthorizedException None).
Proof.
  intros alice bob dto token.
  assert (Hin : @AuthService.signIn demo_bcrypt demo_signer 100 dto [bob; alice]
                = Resolves (mkSignInResult token)) by reflexivity.
  split; [exact Hin|].
  destruct (@validate_returns_signed_in_row demo_bcrypt demo_signer 100 dto
              [bob; alice] token Hin)
    as (payload & user & Hp & _ & Hv & _ & _ & _ & Hgone).
  injection Hp as <-.
  split; [reflexivity|]. by apply Hgone.
Defined.

(** ** Object literals *)

Lemma lookup_set_eq k v o : Js.lookup_prop k (JsObject.set k v o) = Some v.
Proof.
  induction o as [|[k' v'] o IH]; simpl.
  - by rewrite String.eqb_refl.
  - destruct (String.eqb k k') eqn:E; simpl; [by rewrite String.eqb_refl|].
    by rewrite E.
Qed.

Lemma lookup_set_ne k k' v o :
  k <> k' -> Js.lookup_prop k' (JsObject.set k v o) = Js.lookup_prop k' o.
Proof.
  intros Hne. induction o as [|[k1 v1] o IH]; simpl.
  - destruct (String.eqb_spec k' k); [congruence | done].
  - destruct (String.eqb_spec k k1) as [->|Hk]; simpl.
    + destruct (String.eqb_spec k' k1); [congruence | done].
    + destruct (String.eqb k' k1); [done | exact IH].
Qed.

Lemma lookup_prop_None k o :
  Js.lookup_prop k o = None <-> k ∉ Js.keys o.
Proof.
  unfold Js.keys. induction o as [|[k' v'] o IH]; simpl.
  - split; [intros _; apply not_elem_of_nil | done].
  - rewrite not_elem_of_cons.
    destruct (String.eqb_spec k k') as [->|Hne]; [split; [done | tauto]|].
    rewrite IH. tauto.
Qed.

Lemma lookup_spread k source target :
  NoDup (Js.keys source) ->
  Js.lookup_prop k (JsObject.spread source target) =
  match Js.lookup_prop k source with
  | Some v => Some v
  | None => Js.lookup_prop k target
  end.
Proof.
  unfold JsObject.spread. revert target.
  induction source as [|[k1 v1] source IH]; intros target Hnd; simpl;
    [done|].
  unfold Js.keys in Hnd. simpl in Hnd. apply NoDup_cons in Hnd as [Hk1 Hnd].
  rewrite (IH _ Hnd).
  destruct (String.eqb_spec k k1) as [->|Hne].
  - apply lookup_prop_None in Hk1. by rewrite Hk1, lookup_set_eq.
  - destruct (Js.lookup_prop k source); [done|].
    by apply lookup_set_ne.
Qed.

Lemma lookup_spread_absent k source target :
  Js.lookup_prop k source = None ->
  Js.lookup_prop k (JsObject.spread source target) = Js.lookup_prop k target.
Proof.
  unfold JsObject.spread. revert target.
  induction source as [|[k1 v1] source IH]; intros target; simpl; [done|].
  destruct (String.eqb_spec k k1) as [->|Hne]; [done|].
  intros Hn. rewrite (IH _ Hn). apply lookup_set_ne. congruence.
Qed.

Lemma find_snoc {A} (f : A -> bool) (l : list A) (x : A) :
  find f (l ++ [x]) =
  match find f l with
  | Some y => Some y
  | None => if f x then Some x else None
  end.
Proof.
  induction l as [|y l IH]; simpl; [done|]. by destruct (f y).
Qed.

Lemma find_filter_compatible {A} (f g : A -> bool) (l : list A) :
  (forall x, f x = true -> g x = true) ->
  find f (List.filter g l) = find f l.
Proof.
  intros Hfg. induction l as [|x l IH]; simpl; [done|].
  destruct (g x) eqn:Eg; simpl.
  - by destruct (f x).
  - destruct (f x) eqn:Ef; [|done]. apply Hfg in Ef. congruence.
Qed.

Lemma has_id_exclusive id id' t :
  id <> id' ->
  InMemoryTasksService.has_id id t = true ->
  InMemoryTasksService.has_id id' t = false.
Proof.
  unfold InMemoryTasksService.has_id, Js.strict_eq_string. intros Hne.
  destruct (JsObject.prop "id" t); try done.
  intros ->%String.eqb_eq. by apply String.eqb_neq.
Qed.

(** ** The in-memory task service *)

Lemma created_task_has_generated_id OPEN_value uuid dto tasks :
  Js.lookup_prop "id" dto = None ->
  InMemoryTasksService.has_id uuid
    (InMemoryTasksService.createTask OPEN_value uuid dto tasks).1 = true.
Proof.
  intros Hnoid. unfold InMemoryTasksService.has_id, JsObject.prop. simpl.
  rewrite lookup_set_ne by done.
  rewrite (lookup_spread_absent _ _ _ Hnoid). simpl.
  apply String.eqb_refl.
Qed.

(** X6: in the object [createTask] builds, [{ id: uuid(), ...dto,
    status: OPEN }], the spread sits between the two literal properties:
    the status is OPEN whatever the dto holds, but an [id] property of the
    dto replaces the generated id; every other property is the dto's. *)
Theorem createTask_spread_order
    (OPEN_value : Js.Value) (uuid : string) (dto : Js.Props)
    (tasks : list Js.Props) :
  NoDup (Js.keys dto) ->
  let task := (InMemoryTasksService.createTask OPEN_value uuid dto tasks).1 in
  Js.lookup_prop "status" task = Some OPEN_value /\
  Js.lookup_prop "id" task
    = Some (default (Js.String uuid) (Js.lookup_prop "id" dto)) /\
  (forall k, k <> "id" -> k <> "status" ->
     Js.lookup_prop k task = Js.lookup_prop k dto).
Proof.
  intros Hnd task. subst task. simpl. split; [apply lookup_set_eq|].
  split.
  - rewrite lookup_set_ne by done. rewrite (lookup_spread _ _ _ Hnd).
    by destruct (Js.lookup_prop "id" dto).
  - intros k Hid Hst. rewrite lookup_set_ne by done.
    rewrite (lookup_spread _ _ _ Hnd).
    destruct (Js.lookup_prop k dto); [done|].
    simpl. destruct (String.eqb_spec k "id"); [contradiction | done].
Qed.

Lemma createTask_spread_order_witness :
  let dto := [("title", Js.String "buy milk"); ("id", Js.String "t0");
              ("status", Js.String "DONE")] in
  let task := (InMemoryTasksService.createTask (Js.String "OPEN") "6f1e" dto []).1 in
  NoDup (Js.keys dto) /\
  Js.lookup_prop "status" task = Some (Js.String "OPEN") /\
  Js.lookup_prop "id" task = Some (Js.String "t0").
Proof.
  intros dto task.
  assert (Hnd : NoDup (Js.keys dto)).
  { apply (bool_decide_unpack _). by vm_compute. }
  split; [exact Hnd|].
  destruct (createTask_spread_order (Js.String "OPEN") "6f1e" dto [] Hnd)
    as (Hs & Hi & _).
  split; [exact Hs | exact Hi].
Defined.

(** X7: create then get.  For a dto without an [id] and a generated id that
    no stored task has, [getTaskById] of the generated id returns the task
    just created, [getAllTasks] is the old list with that task at its end,
    and every other id resolves as before. *)
Theorem createTask_then_getTaskById
    (OPEN_value : Js.Value) (uuid : string) (dto : Js.Props)
    (tasks : list Js.Props) :
  Js.lookup_prop "id" dto = None ->
  Forall (fun t => InMemoryTasksService.has_id uuid t = false) tasks ->
  let created := InMemoryTasksService.createTask OPEN_value uuid dto tasks in
  InMemoryTasksService.getTaskById uuid created.2 = Resolves created.1 /\
  InMemoryTasksService.getAllTasks created.2 = (tasks ++ [created.1])%list /\
  (forall id, id <> uuid ->
     InMemoryTasksService.getTaskById id created.2
     = InMemoryTasksService.getTaskById id tasks).
Proof.
  intros Hnoid Hfresh created.
  pose proof (created_task_has_generated_id OPEN_value uuid dto tasks Hnoid)
    as Hid.
  subst created. unfold InMemoryTasksService.getTaskById.
  cbn [fst snd InMemoryTasksService.createTask] in *.
  split; [|split; [done|]].
  - assert (Hnone : find (InMemoryTasksService.has_id uuid) tasks = None).
    { clear -Hfresh. induction Hfresh as [|t l Ht _ IH]; simpl; [done|].
      by rewrite Ht. }
    by rewrite find_snoc, Hnone, Hid.
  - intros id Hne. rewrite find_snoc.
    rewrite (has_id_exclusive uuid id _ (not_eq_sym Hne) Hid).
    by destruct (find (InMemoryTasksService.has_id id) tasks).
Qed.

Lemma createTask_then_getTaskById_witness :
  let old := [("id", Js.String "a1"); ("title", Js.String "walk dog");
              ("status", Js.String "OPEN")] in
  let dto := [("title", Js.String "buy milk"); ("description", Js.String "2%")] in
  let created :=
    InMemoryTasksService.createTask (Js.String "OPEN") "6f1e" dto [old] in
  InMemoryTasksService.getTaskById "6f1e" created.2 = Resolves created.1 /\
  InMemoryTasksService.getTaskById "a1" created.2 = Resolves old.
Proof.
  intros old dto created.
  destruct (createTask_then_getTaskById (Js.String "OPEN") "6f1e" dto [old])
    as (Hget & _ & Hother).
  - reflexivity.
  - by repeat constructor.
  - split; [exact Hget|].
    etransitivity; [apply (Hother "a1"); discriminate | reflexivity].
Defined.

(** X8: [deleteTask] removes every task with the id and nothing else, and
    never fails: afterwards [getTaskById] of that id is a NotFound, any
    other id resolves as before, no task was added, and deleting an id that
    [getTaskById] cannot find leaves the list as it was. *)
Theorem deleteTask_effect (id : string) (tasks : list Js.Props) :
  let tasks' := InMemoryTasksService.deleteTask id tasks in
  InMemoryTasksService.getTaskById id tasks' = Rejects NotFoundException /\
  (forall id', id' <> id ->
     InMemoryTasksService.getTaskById id' tasks'
     = InMemoryTasksService.getTaskById id' tasks) /\
  (forall t, t ∈ tasks' <->
     t ∈ tasks /\ InMemoryTasksService.has_id id t = false) /\
  (InMemoryTasksService.getTaskById id tasks = Rejects NotFoundException ->
   tasks' = tasks).
Proof.
  intros tasks'. subst tasks'.
  unfold InMemoryTasksService.getTaskById, InMemoryTasksService.deleteTask.
  split; [|split; [|split]].
  - destruct (find _ (List.filter _ tasks)) as [t|] eqn:E; [|done].
    apply find_some in E as [Hin Ht].
    apply filter_In in Hin as [_ Hn]. by rewrite Ht in Hn.
  - intros id' Hne. rewrite find_filter_compatible; [done|].
    intros t Ht. by rewrite (has_id_exclusive id' id t Hne Ht).
  - intros t. rewrite !list_elem_of_In, filter_In, negb_true_iff. tauto.
  - destruct (find (InMemoryTasksService.has_id id) tasks) eqn:E; [done|].
    intros _. induction tasks as [|t l IH]; simpl in *; [done|].
    destruct (InMemoryTasksService.has_id id t); [done|].
    simpl. by rewrite IH.
Qed.

(** ** The password pattern *)

(** Head reduction of string appends in a hypothesis. *)
Ltac append_head H :=
  repeat match type of H with
  | context [String.append EmptyString ?x] =>
      change (String.append EmptyString x) with x in H
  | context [String.append (String ?c ?a) ?x] =>
      change (String.append (String c a) x)
        with (String c (String.append a x)) in H
  end.

Lemma append_empty_r (s : string) : (s ++ "")%string = s.
Proof.
  induction s as [|c s IH]; [done|].
  change (String c (s ++ "") = String c s)%string. by rewrite IH.
Qed.

Lemma all_app p (a b : string) :
  CharClass.all p (a ++ b) = CharClass.all p a && CharClass.all p b.
Proof.
  induction a as [|c a IH]; simpl; [done|]. by rewrite IH, andb_assoc.
Qed.

Lemma any_app p (a b : string) :
  CharClass.any p (a ++ b) = CharClass.any p a || CharClass.any p b.
Proof.
  induction a as [|c a IH]; simpl; [done|]. by rewrite IH, orb_assoc.
Qed.

Lemma any_split p (s : string) :
  CharClass.any p s = true <->
  exists a c b, s = (a ++ String c b)%string /\ p c = true.
Proof.
  induction s as [|d s IH]; simpl.
  - split; [done|]. intros (a & c & b & Heq & _). by destruct a.
  - rewrite orb_true_iff, IH. split.
    + intros [Hd | (a & c & b & -> & Hc)].
      * by exists ""%string, d, s.
      * by exists (String d a), c, b.
    + intros (a & c & b & Heq & Hc).
      destruct a as [|e a]; append_head Heq.
      * injection Heq as -> ->. by left.
      * injection Heq as -> ->. right. by exists a, c, b.
Qed.

Lemma star_spec p k (s : string) :
  Regex.star p k s = true <->
  exists a b, s = (a ++ b)%string /\ CharClass.all p a = true /\ k b = true.
Proof.
  induction s as [|c s IH]; cbn [Regex.star].
  - rewrite orb_false_l. split.
    + intros Hk. by exists ""%string, ""%string.
    + intros (a & b & Heq & _ & Hk).
      destruct a; append_head Heq; [by subst | discriminate].
  - rewrite orb_true_iff, andb_true_iff, IH. split.
    + intros [[Hc (a & b & -> & Ha & Hk)] | Hk].
      * exists (String c a), b. simpl. by rewrite Hc, Ha.
      * by exists ""%string, (String c s).
    + intros (a & b & Heq & Ha & Hk).
      destruct a as [|d a]; append_head Heq; simpl in Ha.
      * right. by subst.
      * injection Heq as -> ->. apply andb_true_iff in Ha as [Hd Ha].
        left. split; [done|]. by exists a, b.
Qed.

Lemma star_anything p (s : string) : Regex.star p (fun _ => true) s = true.
Proof. destruct s; cbn [Regex.star]; apply orb_true_r. Qed.

(** [.*c] at the head of a lookahead: some character of the class, with no
    line terminator before it. *)
Lemma run_dotstar_char q (s : string) :
  Regex.run (Regex.Seq (Regex.Star CharClass.dot) (Regex.Char q))
            (fun _ => true) s = true <->
  exists a c b, s = (a ++ String c b)%string /\
                CharClass.all CharClass.dot a = true /\ q c = true.
Proof.
  cbn [Regex.run]. rewrite star_spec. split.
  - intros (a & b & -> & Ha & Hk). destruct b as [|c b]; [done|].
    rewrite andb_true_r in Hk. by exists a, c, b.
  - intros (a & c & b & -> & Ha & Hc). exists a, (String c b).
    by rewrite Hc.
Qed.

Lemma run_dotstar_plus q (s : string) :
  Regex.run (Regex.Seq (Regex.Star CharClass.dot) (Regex.Plus q))
            (fun _ => true) s = true <->
  exists a c b, s = (a ++ String c b)%string /\
                CharClass.all CharClass.dot a = true /\ q c = true.
Proof.
  cbn [Regex.run]. rewrite star_spec. split.
  - intros (a & b & -> & Ha & Hk). destruct b as [|c b]; [done|].
    rewrite star_anything, andb_true_r in Hk. by exists a, c, b.
  - intros (a & c & b & -> & Ha & Hc). exists a, (String c b).
    by rewrite Hc, star_anything.
Qed.

Lemma run_dotstar_end (s : string) :
  Regex.run (Regex.Seq (Regex.Star CharClass.dot) Regex.End)
            (fun _ => true) s = true <->
  CharClass.all CharClass.dot s = true.
Proof.
  cbn [Regex.run]. rewrite star_spec. split.
  - intros (a & b & -> & Ha & Hk). destruct b; [|done].
    by rewrite append_empty_r.
  - intros Ha. exists s, ""%string. by rewrite append_empty_r.
Qed.

Lemma run_char_anything p (s : string) :
  Regex.run (Regex.Char p) (fun _ => true) s = CharClass.starts_with p s.
Proof. destruct s; simpl; [done | apply andb_true_r]. Qed.

Lemma seen_before_line_end q (s : string) :
  CharClass.all CharClass.dot s = true ->
  (exists a c b, s = (a ++ String c b)%string /\
                 CharClass.all CharClass.dot a = true /\ q c = true) <->
  CharClass.any q s = true.
Proof.
  intros Hs. rewrite any_split. split.
  - intros (a & c & b & ? & _ & ?). by exists a, c, b.
  - intros (a & c & b & -> & Hc). exists a, c, b.
    rewrite all_app in Hs. apply andb_true_iff in Hs as [Ha _]. done.
Qed.

(** A match of the pattern that starts at the head of [s]. *)
Lemma password_pattern_here (s : string) :
  Regex.run AuthCredentialsValidation.password_pattern (fun _ => true) s = true
  <->
  CharClass.all CharClass.dot s = true /\
  CharClass.starts_with CharClass.full_stop_or_newline s = false /\
  (CharClass.any CharClass.digit s = true \/
   CharClass.any CharClass.non_word s = true) /\
  CharClass.any CharClass.upper s = true /\
  CharClass.any CharClass.lower s = true.
Proof.
  set (look q := Regex.Seq (Regex.Star CharClass.dot) (Regex.Char q)).
  set (look_plus q := Regex.Seq (Regex.Star CharClass.dot) (Regex.Plus q)).
  set (k := fun _ : string => true).
  change (Regex.run AuthCredentialsValidation.password_pattern k s)
    with (let rest :=
            negb (Regex.run (Regex.Char CharClass.full_stop_or_newline) k s)
            && (Regex.run (look CharClass.upper) k s
                && (Regex.run (look CharClass.lower) k s
                    && Regex.run (Regex.Seq (Regex.Star CharClass.dot)
                                            Regex.End) k s)) in
          (Regex.run (look CharClass.digit) k s && rest)
          || (Regex.run (look_plus CharClass.non_word) k s && rest)).
  cbv zeta. subst look look_plus k.
  rewrite orb_true_iff, !andb_true_iff, negb_true_iff, run_char_anything.
  rewrite run_dotstar_end, !run_dotstar_char, run_dotstar_plus.
  split.
  - intros [(Hd & Hn & Hu & Hl & Hall) | (Hw & Hn & Hu & Hl & Hall)];
      (split; [done|]; split; [done|]);
      rewrite !(seen_before_line_end _ _ Hall) in *; auto.
  - intros (Hall & Hn & Hdw & Hu & Hl).
    rewrite !(seen_before_line_end _ _ Hall).
    destruct Hdw; [left | right]; done.
Qed.

Lemma test_spec r (s : string) :
  Regex.test r s = true <->
  exists pre suf, s = (pre ++ suf)%string /\
                  Regex.run r (fun _ => true) suf = true.
Proof.
  induction s as [|c s IH]; cbn [Regex.test].
  - rewrite orb_false_r. split.
    + intros Hr. by exists ""%string, ""%string.
    + intros (pre & suf & Heq & Hr).
      destruct pre; append_head Heq; [by subst | discriminate].
  - rewrite orb_true_iff, IH. split.
    + intros [Hr | (pre & suf & -> & Hr)].
      * by exists ""%string, (String c s).
      * by exists (String c pre), suf.
    + intros (pre & suf & Heq & Hr).
      destruct pre as [|d pre]; append_head Heq.
      * left. by subst.
      * injection Heq as -> ->. right. by exists pre, suf.
Qed.

Lemma password_pattern_spec (s : string) :
  Regex.test AuthCredentialsValidation.password_pattern s = true <->
  exists pre suf,
    s = (pre ++ suf)%string /\
    CharClass.all CharClass.dot suf = true /\
    CharClass.starts_with CharClass.full_stop_or_newline suf = false /\
    (CharClass.any CharClass.digit suf = true \/
     CharClass.any CharClass.non_word suf = true) /\
    CharClass.any CharClass.upper suf = true /\
    CharClass.any CharClass.lower suf = true.
Proof.
  rewrite test_spec. split; intros (pre & suf & Heq & Hr); exists pre, suf;
    (split; [done|]); by apply password_pattern_here.
Qed.

(** X9: what the password pattern accepts.  A string matches exactly when
    it has a tail (the match may start anywhere) that is free of line
    terminators, does not begin with a full stop, and contains an upper-case
    letter, a lower-case letter and a digit or a non-word character.  So a
    string without line terminators that does not begin with a full stop
    matches as soon as it has the three kinds of character. *)
Theorem password_pattern_accepts (s : string) :
  (AuthCredentialsValidation.Matches
     AuthCredentialsValidation.password_pattern s = true <->
   exists pre suf,
     s = (pre ++ suf)%string /\
     CharClass.all CharClass.dot suf = true /\
     CharClass.starts_with CharClass.full_stop_or_newline suf = false /\
     (CharClass.any CharClass.digit suf = true \/
      CharClass.any CharClass.non_word suf = true) /\
     CharClass.any CharClass.upper suf = true /\
     CharClass.any CharClass.lower suf = true) /\
  (CharClass.all CharClass.dot s = true ->
   CharClass.starts_with CharClass.full_stop_or_newline s = false ->
   CharClass.any CharClass.digit s = true \/
   CharClass.any CharClass.non_word s = true ->
   CharClass.any CharClass.upper s = true ->
   CharClass.any CharClass.lower s = true ->
   AuthCredentialsValidation.Matches
     AuthCredentialsValidation.password_pattern s = true).
Proof.
  unfold AuthCredentialsValidation.Matches.
  split; [apply password_pattern_spec|].
  intros. apply password_pattern_spec. by exists ""%string, s.
Qed.

(** X10: credentials that pass the decorators of [AuthCredentialsDto] keep
    the documented policy: a username of 4 to 20 characters, and a password
    of 8 to 20 characters with an upper-case letter, a lower-case letter,
    and a digit or a non-word character. *)
Theorem valid_credentials_meet_policy (dto : AuthCredentialsDto) :
  AuthCredentialsValidation.valid dto = true ->
  (4 <= String.length (dto_username dto) <= 20)%nat /\
  (8 <= String.length (dto_password dto) <= 20)%nat /\
  CharClass.any CharClass.upper (dto_password dto) = true /\
  CharClass.any CharClass.lower (dto_password dto) = true /\
  (CharClass.any CharClass.digit (dto_password dto) = true \/
   CharClass.any CharClass.non_word (dto_password dto) = true).
Proof.
  unfold AuthCredentialsValidation.valid, AuthCredentialsValidation.username_ok,
    AuthCredentialsValidation.password_ok, AuthCredentialsValidation.MinLength,
    AuthCredentialsValidation.MaxLength, AuthCredentialsValidation.Matches.
  rewrite !andb_true_iff, !Nat.leb_le, password_pattern_spec.
  intros [[Hu1 Hu2] [[Hp1 Hp2] (pre & suf & Heq & _ & _ & Hdw & Hup & Hlo)]].
  split; [lia|]. split; [lia|].
  rewrite Heq, !any_app, Hup, Hlo, !orb_true_r.
  split; [done|]. split; [done|].
  destruct Hdw as [-> | ->]; rewrite orb_true_r; auto.
Qed.

Lemma valid_credentials_meet_policy_witness :
  let dto := mkCredentials "alice" "Passw0rd!" in
  AuthCredentialsValidation.valid dto = true /\
  CharClass.any CharClass.upper "Passw0rd!" = true /\
  CharClass.any CharClass.lower "Passw0rd!" = true.
Proof.
  intros dto.
  assert (Hv : AuthCredentialsValidation.valid dto = true) by reflexivity.
  split; [exact Hv|].
  destruct (valid_credentials_meet_policy dto Hv) as (_ & _ & Hu & Hl & _).
  split; [exact Hu | exact Hl].
Defined.

(** X11: leading full stops never serve as the special character.  A
    password made of any number of full stops followed by characters that
    are neither digits nor non-word characters is rejected as weak, although
    a full stop in any later place does count. *)
Theorem leading_full_stops_do_not_count (n : nat) (w : string) :
  CharClass.any CharClass.digit w = false ->
  CharClass.any CharClass.non_word w = false ->
  AuthCredentialsValidation.Matches AuthCredentialsValidation.password_pattern
    (CharClass.full_stops n ++ w) = false /\
  AuthCredentialsValidation.password_ok (CharClass.full_stops n ++ w) = false.
Proof.
  intros Hd Hw.
  assert (Hm : AuthCredentialsValidation.Matches
                 AuthCredentialsValidation.password_pattern
                 (CharClass.full_stops n ++ w) = false).
  { unfold AuthCredentialsValidation.Matches.
    induction n as [|n IH].
    - change (CharClass.full_stops 0 ++ w)%string with w.
      destruct (Regex.test AuthCredentialsValidation.password_pattern w)
        eqn:E; [|done].
      apply password_pattern_spec in E
        as (pre & suf & -> & _ & _ & Hdw & _).
      rewrite !any_app in Hd, Hw.
      apply orb_false_iff in Hd as [_ Hd]. apply orb_false_iff in Hw as [_ Hw].
      destruct Hdw; congruence.
    - change (CharClass.full_stops (S n) ++ w)%string
        with (String "." (CharClass.full_stops n ++ w)).
      cbn [Regex.test]. rewrite IH, orb_false_r.
      destruct (Regex.run AuthCredentialsValidation.password_pattern
                  (fun _ => true)
                  (String "." (CharClass.full_stops n ++ w))) eqn:E; [|done].
      apply password_pattern_here in E as (_ & Hn & _). done. }
  split; [exact Hm|].
  unfold AuthCredentialsValidation.password_ok. by rewrite Hm, andb_false_r.
Qed.

Lemma leading_full_stops_do_not_count_witness :
  CharClass.any CharClass.digit "Secret" = false /\
  CharClass.any CharClass.non_word "Secret" = false /\
  AuthCredentialsValidation.password_ok "......Secret" = false /\
  AuthCredentialsValidation.password_ok "Sec.ret." = true.
Proof.
  assert (Hd : CharClass.any CharClass.digit "Secret" = false) by reflexivity.
  assert (Hw : CharClass.any CharClass.non_word "Secret" = false)
    by reflexivity.
  split; [exact Hd|]. split; [exact Hw|].
  split; [|reflexivity].
  exact (proj2 (leading_full_stops_do_not_count 6 "Secret" Hd Hw)).
Defined.
